(** * tinyi2s: the ESP8266 I2S/DMA output driver of the Moddable SDK

    A shallow embedding of [build/devices/esp/lib/tinyi2s/tinyi2s.c].

    The driver is a handful of C functions over file-level statics and
    memory-mapped registers.  The statics, the register file, the interrupt
    controller and the allocator are gathered in one [state] record, the C
    functions become computations of a state-and-fault monad, and everything
    the hardware or the platform can observe (register writes, interrupt
    masking, the render callback, [malloc]/[free], pin and clock calls) is
    appended to a [trace] in program order. *)

From Stdlib Require Import ZArith Bool List Lia.
From stdpp Require Import base list gmap.
Import ListNotations.
Local Open Scope Z_scope.

(** ** Machine integers *)

Definition u32 (x : Z) : Z := x mod 2 ^ 32.
Definition u8 (x : Z) : Z := x mod 2 ^ 8.

(** [~m] on a 32-bit operand. *)
Definition not32 (m : Z) : Z := u32 (Z.lnot m).

(** A [uint32 f : w] bit-field keeps the low [w] bits of what is stored. *)
Definition bitfield (w : Z) (x : Z) : Z := x mod 2 ^ w.

(** ** Compile-time constants of the file *)

Definition SLC_BUF_CNT : Z := 4.
Definition SLC_BUF_LEN : Z := 64.

(** [sizeof (struct slc_queue_item)]: one word of bit-fields and two
    pointer-sized words. *)
Definition sizeof_item : Z := 12.

(** ** Constants taken from the platform headers

    [i2s_reg.h], [Arduino.h] and the ETS headers are not part of this
    file.  Every macro the driver takes from them is a field of [peri], and
    so is the link-time address of the descriptor array. *)

Record peri := {
  SLCIRXEOF : Z;
  SLCRXLR : Z; SLCTXLR : Z; SLCMM : Z; SLCM : Z;
  SLCBINR : Z; SLCBTNR : Z; SLCBRXFE : Z; SLCBRXEM : Z; SLCBRXFM : Z;
  SLCTXLAM : Z; SLCTXLA : Z; SLCRXLAM : Z; SLCRXLA : Z;
  SLCTXLS : Z; SLCRXLS : Z;
  I2SRST : Z; I2SDE : Z;
  I2STXFMM : Z; I2STXFM : Z; I2SRXFMM : Z; I2SRXFM : Z;
  I2STXCMM : Z; I2STXCM : Z; I2SRXCMM : Z; I2SRXCM : Z;
  I2STSM : Z; I2SBMM : Z; I2SBM : Z; I2SBDM : Z; I2SBD : Z;
  I2SCDM : Z; I2SCD : Z;
  I2SRF : Z; I2SMR : Z; I2SRSM : Z; I2SRMS : Z; I2STXS : Z;
  I2SBASEFREQ : Z;
  FUNCTION_0 : Z; FUNCTION_1 : Z; INPUT : Z;
  addr_i2s_slc_items : Z
}.

(** ** Data *)

Record slc_queue_item := {
  blocksize : Z;
  datalen : Z;
  unused : Z;
  sub_sof : Z;
  eof : Z;
  owner : Z;
  buf_ptr : Z;
  next_link_ptr : Z
}.

Definition set_blocksize (v : Z) (d : slc_queue_item) : slc_queue_item :=
  {| blocksize := bitfield 12 v; datalen := datalen d; unused := unused d;
     sub_sof := sub_sof d; eof := eof d; owner := owner d;
     buf_ptr := buf_ptr d; next_link_ptr := next_link_ptr d |}.
Definition set_datalen (v : Z) (d : slc_queue_item) : slc_queue_item :=
  {| blocksize := blocksize d; datalen := bitfield 12 v; unused := unused d;
     sub_sof := sub_sof d; eof := eof d; owner := owner d;
     buf_ptr := buf_ptr d; next_link_ptr := next_link_ptr d |}.
Definition set_unused (v : Z) (d : slc_queue_item) : slc_queue_item :=
  {| blocksize := blocksize d; datalen := datalen d; unused := bitfield 5 v;
     sub_sof := sub_sof d; eof := eof d; owner := owner d;
     buf_ptr := buf_ptr d; next_link_ptr := next_link_ptr d |}.
Definition set_sub_sof (v : Z) (d : slc_queue_item) : slc_queue_item :=
  {| blocksize := blocksize d; datalen := datalen d; unused := unused d;
     sub_sof := bitfield 1 v; eof := eof d; owner := owner d;
     buf_ptr := buf_ptr d; next_link_ptr := next_link_ptr d |}.
Definition set_eof (v : Z) (d : slc_queue_item) : slc_queue_item :=
  {| blocksize := blocksize d; datalen := datalen d; unused := unused d;
     sub_sof := sub_sof d; eof := bitfield 1 v; owner := owner d;
     buf_ptr := buf_ptr d; next_link_ptr := next_link_ptr d |}.
Definition set_owner (v : Z) (d : slc_queue_item) : slc_queue_item :=
  {| blocksize := blocksize d; datalen := datalen d; unused := unused d;
     sub_sof := sub_sof d; eof := eof d; owner := bitfield 1 v;
     buf_ptr := buf_ptr d; next_link_ptr := next_link_ptr d |}.
Definition set_buf_ptr (v : Z) (d : slc_queue_item) : slc_queue_item :=
  {| blocksize := blocksize d; datalen := datalen d; unused := unused d;
     sub_sof := sub_sof d; eof := eof d; owner := owner d;
     buf_ptr := u32 v; next_link_ptr := next_link_ptr d |}.
Definition set_next_link_ptr (v : Z) (d : slc_queue_item) : slc_queue_item :=
  {| blocksize := blocksize d; datalen := datalen d; unused := unused d;
     sub_sof := sub_sof d; eof := eof d; owner := owner d;
     buf_ptr := buf_ptr d; next_link_ptr := u32 v |}.

(** The memory-mapped registers the driver touches. *)
Inductive reg :=
| SLCC0 | SLCIS | SLCIE | SLCIC | SLCRXL | SLCTXL | SLCRXEDA | SLCRXDC
| I2SC | I2SFC | I2SCC | I2SIC | I2SIE.

Definition reg_eqb (a b : reg) : bool :=
  match a, b with
  | SLCC0, SLCC0 | SLCIS, SLCIS | SLCIE, SLCIE | SLCIC, SLCIC
  | SLCRXL, SLCRXL | SLCTXL, SLCTXL | SLCRXEDA, SLCRXEDA | SLCRXDC, SLCRXDC
  | I2SC, I2SC | I2SFC, I2SFC | I2SCC, I2SCC | I2SIC, I2SIC | I2SIE, I2SIE => true
  | _, _ => false
  end.

(** What the rest of the system can observe, in program order. *)
Inductive event :=
| EvIntrDisable                      (* ETS_SLC_INTR_DISABLE() *)
| EvIntrEnable                       (* ETS_SLC_INTR_ENABLE() *)
| EvIntrAttach                       (* ETS_SLC_INTR_ATTACH(i2s_slc_isr, NULL) *)
| EvWrite (r : reg) (v : Z)          (* a store to a register *)
| EvRender (fn refcon buf len : Z)   (* the call through i2s_render *)
| EvMalloc (size p : Z)              (* malloc(size) returned p *)
| EvFree (p : Z)                     (* free(p) *)
| EvPinMode (pin mode : Z)           (* pinMode(pin, mode) *)
| EvAudioClock (on : Z).             (* I2S_CLK_ENABLE() / I2S_CLK_DISABLE() *)

Record state := {
  i2s_slc_queue : list Z;                 (* uint32_t [SLC_BUF_CNT-1] *)
  i2s_slc_queue_len : Z;                  (* uint8_t *)
  i2s_slc_buf_pntr : Z;                   (* uint8_t *, 0 is NULL *)
  i2s_slc_items : list slc_queue_item;    (* [SLC_BUF_CNT] *)
  i2s_render : Z;                         (* function pointer, 0 is NULL *)
  i2s_render_refcon : Z;
  regs : reg -> Z;
  intr_enabled : bool;
  intr_attached : bool;
  heap : gset Z;                          (* blocks malloc handed out, not yet freed *)
  trace : list event
}.

(** What C leaves undefined, or what traps on the target. *)
Inductive fault :=
| DivideByZero
| InvalidFree (p : Z)        (* free of a block that is not allocated *)
| OutOfBounds (i : Z)        (* array access outside the array *)
| NotADescriptor (a : Z)     (* dereference of an address that is no element of i2s_slc_items *)
| NullCall.                  (* call through a null function pointer *)

Inductive result (A : Type) :=
| Ok (a : A)
| Fault (f : fault).
Arguments Ok {A} a.
Arguments Fault {A} f.

(** ** The monad of the driver's code *)

Definition M (A : Type) : Type := state -> result (A * state).

Definition ret {A} (a : A) : M A := fun s => Ok (a, s).
Definition bind {A B} (m : M A) (k : A -> M B) : M B :=
  fun s => match m s with
           | Ok (a, s') => k a s'
           | Fault f => Fault f
           end.
Definition raise {A} (f : fault) : M A := fun _ => Fault f.
Definition get {A} (proj : state -> A) : M A := fun s => Ok (proj s, s).
Definition modify (f : state -> state) : M unit := fun s => Ok (tt, f s).


(** The [x ← c; k] and [c ;; k] notations are those of the monad classes. *)
#[global] Instance M_ret : MRet M := @ret.
#[global] Instance M_bind : MBind M := fun A B k m => bind m k.

(** The state reached when the computation returns. *)
Definition exec {A} (m : M A) (s : state) : result state :=
  match m s with
  | Ok (_, s') => Ok s'
  | Fault f => Fault f
  end.

Definition exec_option {A} (m : M A) (s : state) : option state :=
  match exec m s with
  | Ok s' => Some s'
  | Fault _ => None
  end.

(** [for (x = lo; x < lo + n; x++) body(x)] *)
Fixpoint for_ (n : nat) (x : Z) (body : Z -> M unit) : M unit :=
  match n with
  | O => ret tt
  | S n' => body x ;; for_ n' (x + 1) body
  end.

(** Field updates of [state]. *)
Definition with_queue (q : list Z) (s : state) : state :=
  {| i2s_slc_queue := q; i2s_slc_queue_len := i2s_slc_queue_len s;
     i2s_slc_buf_pntr := i2s_slc_buf_pntr s; i2s_slc_items := i2s_slc_items s;
     i2s_render := i2s_render s; i2s_render_refcon := i2s_render_refcon s;
     regs := regs s; intr_enabled := intr_enabled s;
     intr_attached := intr_attached s; heap := heap s; trace := trace s |}.
Definition with_queue_len (n : Z) (s : state) : state :=
  {| i2s_slc_queue := i2s_slc_queue s; i2s_slc_queue_len := u8 n;
     i2s_slc_buf_pntr := i2s_slc_buf_pntr s; i2s_slc_items := i2s_slc_items s;
     i2s_render := i2s_render s; i2s_render_refcon := i2s_render_refcon s;
     regs := regs s; intr_enabled := intr_enabled s;
     intr_attached := intr_attached s; heap := heap s; trace := trace s |}.
Definition with_buf_pntr (p : Z) (s : state) : state :=
  {| i2s_slc_queue := i2s_slc_queue s; i2s_slc_queue_len := i2s_slc_queue_len s;
     i2s_slc_buf_pntr := p; i2s_slc_items := i2s_slc_items s;
     i2s_render := i2s_render s; i2s_render_refcon := i2s_render_refcon s;
     regs := regs s; intr_enabled := intr_enabled s;
     intr_attached := intr_attached s; heap := heap s; trace := trace s |}.
Definition with_items (l : list slc_queue_item) (s : state) : state :=
  {| i2s_slc_queue := i2s_slc_queue s; i2s_slc_queue_len := i2s_slc_queue_len s;
     i2s_slc_buf_pntr := i2s_slc_buf_pntr s; i2s_slc_items := l;
     i2s_render := i2s_render s; i2s_render_refcon := i2s_render_refcon s;
     regs := regs s; intr_enabled := intr_enabled s;
     intr_attached := intr_attached s; heap := heap s; trace := trace s |}.
Definition with_render (fn refcon : Z) (s : state) : state :=
  {| i2s_slc_queue := i2s_slc_queue s; i2s_slc_queue_len := i2s_slc_queue_len s;
     i2s_slc_buf_pntr := i2s_slc_buf_pntr s; i2s_slc_items := i2s_slc_items s;
     i2s_render := fn; i2s_render_refcon := refcon;
     regs := regs s; intr_enabled := intr_enabled s;
     intr_attached := intr_attached s; heap := heap s; trace := trace s |}.
Definition with_regs (f : reg -> Z) (s : state) : state :=
  {| i2s_slc_queue := i2s_slc_queue s; i2s_slc_queue_len := i2s_slc_queue_len s;
     i2s_slc_buf_pntr := i2s_slc_buf_pntr s; i2s_slc_items := i2s_slc_items s;
     i2s_render := i2s_render s; i2s_render_refcon := i2s_render_refcon s;
     regs := f; intr_enabled := intr_enabled s;
     intr_attached := intr_attached s; heap := heap s; trace := trace s |}.
Definition with_intr_enabled (b : bool) (s : state) : state :=
  {| i2s_slc_queue := i2s_slc_queue s; i2s_slc_queue_len := i2s_slc_queue_len s;
     i2s_slc_buf_pntr := i2s_slc_buf_pntr s; i2s_slc_items := i2s_slc_items s;
     i2s_render := i2s_render s; i2s_render_refcon := i2s_render_refcon s;
     regs := regs s; intr_enabled := b;
     intr_attached := intr_attached s; heap := heap s; trace := trace s |}.
Definition with_intr_attached (b : bool) (s : state) : state :=
  {| i2s_slc_queue := i2s_slc_queue s; i2s_slc_queue_len := i2s_slc_queue_len s;
     i2s_slc_buf_pntr := i2s_slc_buf_pntr s; i2s_slc_items := i2s_slc_items s;
     i2s_render := i2s_render s; i2s_render_refcon := i2s_render_refcon s;
     regs := regs s; intr_enabled := intr_enabled s;
     intr_attached := b; heap := heap s; trace := trace s |}.
Definition with_heap (h : gset Z) (s : state) : state :=
  {| i2s_slc_queue := i2s_slc_queue s; i2s_slc_queue_len := i2s_slc_queue_len s;
     i2s_slc_buf_pntr := i2s_slc_buf_pntr s; i2s_slc_items := i2s_slc_items s;
     i2s_render := i2s_render s; i2s_render_refcon := i2s_render_refcon s;
     regs := regs s; intr_enabled := intr_enabled s;
     intr_attached := intr_attached s; heap := h; trace := trace s |}.
Definition with_trace (t : list event) (s : state) : state :=
  {| i2s_slc_queue := i2s_slc_queue s; i2s_slc_queue_len := i2s_slc_queue_len s;
     i2s_slc_buf_pntr := i2s_slc_buf_pntr s; i2s_slc_items := i2s_slc_items s;
     i2s_render := i2s_render s; i2s_render_refcon := i2s_render_refcon s;
     regs := regs s; intr_enabled := intr_enabled s;
     intr_attached := intr_attached s; heap := heap s; trace := t |}.

(** ** Primitives: platform calls and register accesses *)

Definition emit (e : event) : M unit :=
  modify (fun s => with_trace (trace s ++ [e]) s).

Definition upd (r : reg) (v : Z) (f : reg -> Z) : reg -> Z :=
  fun r' => if reg_eqb r r' then v else f r'.

(** [R = v] *)
Definition write (r : reg) (v : Z) : M unit :=
  modify (fun s => with_regs (upd r (u32 v) (regs s)) s) ;;
  emit (EvWrite r (u32 v)).

Definition read (r : reg) : M Z := get (fun s => regs s r).

(** [R |= m] *)
Definition set_bits (r : reg) (m : Z) : M unit :=
  v ← read r; write r (Z.lor v m).

(** [R &= ~m] *)
Definition clr_bits (r : reg) (m : Z) : M unit :=
  v ← read r; write r (Z.land v (not32 m)).

Definition ETS_SLC_INTR_DISABLE : M unit :=
  modify (with_intr_enabled false) ;; emit EvIntrDisable.
Definition ETS_SLC_INTR_ENABLE : M unit :=
  modify (with_intr_enabled true) ;; emit EvIntrEnable.
Definition ETS_SLC_INTR_ATTACH : M unit :=
  modify (with_intr_attached true) ;; emit EvIntrAttach.

Definition pinMode (pin mode : Z) : M unit := emit (EvPinMode pin mode).
Definition I2S_CLK_ENABLE : M unit := emit (EvAudioClock 1).
Definition I2S_CLK_DISABLE : M unit := emit (EvAudioClock 0).

(** [malloc (size)].  Which block comes back, or NULL, is the allocator's
    choice: it is the argument [p]. *)
Definition malloc (size p : Z) : M Z :=
  modify (fun s => with_heap (if p =? 0 then heap s else {[ p ]} ∪ heap s) s) ;;
  emit (EvMalloc size p) ;;
  ret p.

(** [free (p)] for a non-null [p]: defined only for a block that is
    allocated. *)
Definition free (p : Z) : M unit :=
  h ← get heap;
  if decide (p ∈ h)
  then modify (with_heap (h ∖ {[ p ]})) ;; emit (EvFree p)
  else raise (InvalidFree p).

(** Unsigned 32-bit division. *)
Definition udiv (a b : Z) : M Z :=
  if b =? 0 then raise DivideByZero else ret (a / b).

(** The call through [i2s_render], with [i2s_render_refcon], the buffer
    and its length as arguments. *)
Definition call_render (buf len : Z) : M unit :=
  fn ← get i2s_render;
  refcon ← get i2s_render_refcon;
  if fn =? 0 then raise NullCall else emit (EvRender fn refcon buf len).

(** ** The driver *)

Section Driver.

Context (hw : peri).

(** [&i2s_slc_items[x]] *)
Definition item_addr (x : Z) : Z := addr_i2s_slc_items hw + sizeof_item * x.

(** The index of the array element an address points at, if it points at
    one. *)
Definition item_index (a : Z) : option nat :=
  let off := a - addr_i2s_slc_items hw in
  if (0 <=? off) && (off <? sizeof_item * SLC_BUF_CNT) && (off mod sizeof_item =? 0)
  then Some (Z.to_nat (off / sizeof_item))
  else None.

(** Reading through a [struct slc_queue_item *]. *)
Definition deref_item (a : Z) : M slc_queue_item :=
  items ← get i2s_slc_items;
  match item_index a with
  | Some i =>
      match items !! i with
      | Some d => ret d
      | None => raise (NotADescriptor a)
      end
  | None => raise (NotADescriptor a)
  end.

(** [i2s_slc_items[x].f = v], as an update [upd] of element [x]. *)
Definition store_item (x : Z) (upd : slc_queue_item -> slc_queue_item) : M unit :=
  items ← get i2s_slc_items;
  match items !! Z.to_nat x with
  | Some d => modify (with_items (<[Z.to_nat x := upd d]> items))
  | None => raise (OutOfBounds x)
  end.

(** [i2s_slc_queue[i] = v] *)
Definition store_queue (i v : Z) : M unit :=
  q ← get i2s_slc_queue;
  if (0 <=? i) && (i <? Z.of_nat (length q))
  then modify (with_queue (<[Z.to_nat i := v]> q))
  else raise (OutOfBounds i).

(** [i2s_slc_queue[i]] *)
Definition load_queue (i : Z) : M Z :=
  q ← get i2s_slc_queue;
  match q !! Z.to_nat i with
  | Some v => ret v
  | None => raise (OutOfBounds i)
  end.

(** pop the top off the queue *)
Definition i2s_slc_queue_next_item : M Z :=
  item ← load_queue 0;
  len ← get i2s_slc_queue_len;
  modify (with_queue_len (len - 1));;
  len ← get i2s_slc_queue_len;
  for_ (Z.to_nat len) 0 (fun i => v ← load_queue (i + 1); store_queue i v);;
  ret item.

Definition i2s_slc_isr : M unit :=
  slc_intr_status ← read SLCIS;
  write SLCIC 0xFFFFFFFF;;
  if negb (Z.land slc_intr_status (SLCIRXEOF hw) =? 0) then
    ETS_SLC_INTR_DISABLE;;
    finished_item ← read SLCRXEDA;
    d ← deref_item finished_item;
    call_render (buf_ptr d) SLC_BUF_LEN;;
    len ← get i2s_slc_queue_len;
    (if SLC_BUF_CNT - 1 <=? len
     then i2s_slc_queue_next_item;; ret tt   (* free space for finished_item *)
     else ret tt);;
    d ← deref_item finished_item;
    len ← get i2s_slc_queue_len;
    store_queue len (buf_ptr d);;
    modify (with_queue_len (len + 1));;
    ETS_SLC_INTR_ENABLE
  else ret tt.

(** The body of the loop of [i2s_slc_begin]. *)
Definition slc_begin_body (x : Z) : M unit :=
  base ← get i2s_slc_buf_pntr;
  let buf_pntr := u32 (base + x * SLC_BUF_LEN * 4) in
  call_render buf_pntr SLC_BUF_LEN;;
  store_item x (set_unused 0);;
  store_item x (set_owner 1);;
  store_item x (set_eof 1);;
  store_item x (set_sub_sof 0);;
  store_item x (set_datalen (SLC_BUF_LEN * 4));;
  store_item x (set_blocksize (SLC_BUF_LEN * 4));;
  store_item x (set_buf_ptr buf_pntr);;
  store_item x (set_next_link_ptr
                  (if x <? SLC_BUF_CNT - 1 then item_addr (x + 1) else item_addr 0)).

(** [p] is what [malloc] returns. *)
Definition i2s_slc_begin (p : Z) : M unit :=
  modify (with_queue_len 0);;
  b ← malloc (SLC_BUF_LEN * 4 * SLC_BUF_CNT) p;
  modify (with_buf_pntr b);;
  for_ (Z.to_nat SLC_BUF_CNT) 0 slc_begin_body;;

  ETS_SLC_INTR_DISABLE;;
  set_bits SLCC0 (Z.lor (SLCRXLR hw) (SLCTXLR hw));;
  clr_bits SLCC0 (Z.lor (SLCRXLR hw) (SLCTXLR hw));;
  write SLCIC 0xFFFFFFFF;;

  (* Configure DMA *)
  clr_bits SLCC0 (Z.shiftl (SLCMM hw) (SLCM hw));;
  set_bits SLCC0 (Z.shiftl 1 (SLCM hw));;
  set_bits SLCRXDC (Z.lor (SLCBINR hw) (SLCBTNR hw));;
  clr_bits SLCRXDC (Z.lor (Z.lor (SLCBRXFE hw) (SLCBRXEM hw)) (SLCBRXFM hw));;

  (* Feed DMA the 1st buffer desc addr *)
  clr_bits SLCTXL (Z.shiftl (SLCTXLAM hw) (SLCTXLA hw));;
  set_bits SLCTXL (u32 (Z.shiftl (item_addr 1) (SLCTXLA hw)));;
  clr_bits SLCRXL (Z.shiftl (SLCRXLAM hw) (SLCRXLA hw));;
  set_bits SLCRXL (u32 (Z.shiftl (item_addr 0) (SLCRXLA hw)));;

  ETS_SLC_INTR_ATTACH;;
  write SLCIE (SLCIRXEOF hw);;

  ETS_SLC_INTR_ENABLE;;

  (* Start transmission *)
  set_bits SLCTXL (SLCTXLS hw);;
  set_bits SLCRXL (SLCRXLS hw).

Definition i2s_slc_end : M unit :=
  ETS_SLC_INTR_DISABLE;;
  write SLCIC 0xFFFFFFFF;;
  write SLCIE 0;;
  clr_bits SLCTXL (Z.shiftl (SLCTXLAM hw) (SLCTXLA hw));;
  clr_bits SLCRXL (Z.shiftl (SLCRXLAM hw) (SLCRXLA hw)).

(** The two lines under [// set rate]: the clock divider and the bit-clock
    divider of a sample rate.  The operands are unsigned 32-bit; the second
    result is stored in a [uint8_t]. *)
Definition i2s_dividers (rate : Z) : M (Z * Z) :=
  q ← udiv (u32 (I2SBASEFREQ hw)) (u32 (rate * 32));
  let i2s_clock_div := Z.land q (I2SCDM hw) in
  q ← udiv (u32 (I2SBASEFREQ hw)) (u32 (rate * i2s_clock_div * 2));
  let i2s_bck_div := u8 (Z.land q (I2SBDM hw)) in
  ret (i2s_clock_div, i2s_bck_div).

(** The reset pulse on [I2SC]. *)
Definition i2s_reset : M unit :=
  clr_bits I2SC (I2SRST hw);;
  set_bits I2SC (I2SRST hw);;
  clr_bits I2SC (I2SRST hw).

Definition i2s_begin (render refcon rate : Z) (p : Z) : M unit :=
  modify (with_render render refcon);;
  i2s_slc_begin p;;

  pinMode 2 (FUNCTION_1 hw);;
  pinMode 3 (FUNCTION_1 hw);;
  pinMode 15 (FUNCTION_1 hw);;

  I2S_CLK_ENABLE;;
  write I2SIC 0x3F;;
  write I2SIE 0;;

  i2s_reset;;

  clr_bits I2SFC (Z.lor (Z.lor (I2SDE hw) (Z.shiftl (I2STXFMM hw) (I2STXFM hw)))
                        (Z.shiftl (I2SRXFMM hw) (I2SRXFM hw)));;
  set_bits I2SFC (I2SDE hw);;
  clr_bits I2SCC (Z.lor (Z.shiftl (I2STXCMM hw) (I2STXCM hw))
                        (Z.shiftl (I2SRXCMM hw) (I2SRXCM hw)));;

  (* set rate *)
  '(i2s_clock_div, i2s_bck_div) ← i2s_dividers rate;

  clr_bits I2SC (Z.lor (Z.lor (Z.lor (I2STSM hw) (Z.shiftl (I2SBMM hw) (I2SBM hw)))
                              (Z.shiftl (I2SBDM hw) (I2SBD hw)))
                       (Z.shiftl (I2SCDM hw) (I2SCD hw)));;
  set_bits I2SC (Z.lor (Z.lor (Z.lor (Z.lor (Z.lor (I2SRF hw) (I2SMR hw)) (I2SRSM hw)) (I2SRMS hw))
                              (Z.shiftl (i2s_bck_div - 1) (I2SBD hw)))
                       (Z.shiftl (i2s_clock_div - 1) (I2SCD hw)));;

  (* Start transmission *)
  set_bits I2SC (I2STXS hw).

Definition i2s_end : M unit :=
  I2S_CLK_DISABLE;;
  i2s_slc_end;;
  p ← get i2s_slc_buf_pntr;
  (if p =? 0 then ret tt else free p);;
  i2s_reset;;
  pinMode 2 (INPUT hw);;
  pinMode 3 (FUNCTION_0 hw);;
  pinMode 15 (INPUT hw).

(** ** The hardware side

    The DMA engine raises the SLC interrupt: it presents an interrupt
    status and the address of the descriptor it finished, and the handler
    runs. *)
Definition slc_interrupt (status eda : Z) : M unit :=
  modify (fun s => with_regs (upd SLCRXEDA eda (upd SLCIS status (regs s))) s);;
  i2s_slc_isr.

(** A run of interrupts, each given by the status and the descriptor address
    the hardware presents. *)
Fixpoint slc_interrupts (es : list (Z * Z)) : M unit :=
  match es with
  | [] => ret tt
  | (status, eda) :: es' => slc_interrupt status eda;; slc_interrupts es'
  end.

(** A completion event: the RX end-of-frame bit is set in the status, and
    the finished descriptor is one of the ring. *)
Definition is_completion (e : Z * Z) : bool :=
  negb (Z.land (fst e) (SLCIRXEOF hw) =? 0) &&
  match item_index (snd e) with Some _ => true | None => false end.

(** The SLC raising its interrupt line for the pending causes [raw].  The
    status register [SLCIS] shows only the causes that the enable register
    [SLCIE] lets through, and the attached handler is entered only while the
    interrupt source is enabled and one of those causes is pending. *)
Definition slc_raise (raw eda : Z) : M unit :=
  enabled ← get intr_enabled;
  attached ← get intr_attached;
  mask ← read SLCIE;
  let status := Z.land raw mask in
  if enabled && attached && negb (status =? 0)
  then slc_interrupt status eda
  else ret tt.

Fixpoint slc_raises (es : list (Z * Z)) : M unit :=
  match es with
  | [] => ret tt
  | (raw, eda) :: es' => slc_raise raw eda;; slc_raises es'
  end.



End Driver.

(** ** A concrete platform

    Representative values in the style of the ESP8266 register header, for
    a base frequency [F].  Only [SLCIRXEOF], [I2SBASEFREQ], [I2SCDM],
    [I2SBDM] and [addr_i2s_slc_items] bear on a result below. *)
Definition esp8266_at (F : Z) : peri :=
  {| SLCIRXEOF := Z.shiftl 1 17;
     SLCRXLR := Z.shiftl 1 1; SLCTXLR := Z.shiftl 1 0; SLCMM := 0x3; SLCM := 12;
     SLCBINR := Z.shiftl 1 17; SLCBTNR := Z.shiftl 1 16;
     SLCBRXFE := Z.shiftl 1 20; SLCBRXEM := Z.shiftl 1 19; SLCBRXFM := Z.shiftl 1 18;
     SLCTXLAM := 0xFFFFF; SLCTXLA := 0; SLCRXLAM := 0xFFFFF; SLCRXLA := 0;
     SLCTXLS := Z.shiftl 1 29; SLCRXLS := Z.shiftl 1 29;
     I2SRST := 0xF; I2SDE := Z.shiftl 1 12;
     I2STXFMM := 0x7; I2STXFM := 0; I2SRXFMM := 0x7; I2SRXFM := 3;
     I2STXCMM := 0x7; I2STXCM := 0; I2SRXCMM := 0x3; I2SRXCM := 3;
     I2STSM := Z.shiftl 1 6; I2SBMM := 0xF; I2SBM := 12; I2SBDM := 0x3F; I2SBD := 22;
     I2SCDM := 0x3F; I2SCD := 16;
     I2SRF := Z.shiftl 1 5; I2SMR := Z.shiftl 1 4; I2SRSM := Z.shiftl 1 7;
     I2SRMS := Z.shiftl 1 3; I2STXS := Z.shiftl 1 8;
     I2SBASEFREQ := F;
     FUNCTION_0 := 0x08; FUNCTION_1 := 0x18; INPUT := 0x00;
     addr_i2s_slc_items := 0x3FFE8000 |}.

(** The 160 MHz base clock of the part. *)
Definition esp8266 : peri := esp8266_at 160000000.

Definition zero_item : slc_queue_item :=
  {| blocksize := 0; datalen := 0; unused := 0; sub_sof := 0; eof := 0;
     owner := 0; buf_ptr := 0; next_link_ptr := 0 |}.

(** The statics as the C start-up code leaves them (all zero), no block
    allocated, nothing observed yet. *)
Definition power_on : state :=
  {| i2s_slc_queue := [0; 0; 0]; i2s_slc_queue_len := 0;
     i2s_slc_buf_pntr := 0;
     i2s_slc_items := [zero_item; zero_item; zero_item; zero_item];
     i2s_render := 0; i2s_render_refcon := 0;
     regs := fun _ => 0; intr_enabled := false; intr_attached := false;
     heap := ∅; trace := [] |}.

(** ** Vocabulary of the properties *)

(** The two static arrays have the sizes of their declarations. *)
Definition arrays_ok (s : state) : Prop :=
  length (i2s_slc_queue s) = Z.to_nat (SLC_BUF_CNT - 1) /\
  length (i2s_slc_items s) = Z.to_nat SLC_BUF_CNT.

(** The Underrun Guard holds at most [SLC_BUF_CNT - 1] entries. *)
Definition guard_ok (s : state) : Prop :=
  0 <= i2s_slc_queue_len s <= SLC_BUF_CNT - 1.

(** The descriptor array lies inside the 32-bit address space. *)
Definition layout_ok (hw : peri) : Prop :=
  0 <= addr_i2s_slc_items hw /\
  addr_i2s_slc_items hw + sizeof_item * SLC_BUF_CNT <= 2 ^ 32.

(** What [malloc] returns when it succeeds: a non-null block of the
    requested size inside the address space. *)
Definition block_ok (p : Z) : Prop :=
  0 < p /\ p + SLC_BUF_LEN * 4 * SLC_BUF_CNT <= 2 ^ 32.

(** The clock divider of a rate, and the divisor of the second division. *)
Definition clock_div (hw : peri) (rate : Z) : Z :=
  Z.land (u32 (I2SBASEFREQ hw) / u32 (rate * 32)) (I2SCDM hw).
Definition bck_div (hw : peri) (rate : Z) : Z :=
  u8 (Z.land (u32 (I2SBASEFREQ hw) / u32 (rate * clock_div hw rate * 2)) (I2SBDM hw)).

(** Neither division of the rate computation has a zero divisor. *)
Definition rate_ok (hw : peri) (rate : Z) : bool :=
  negb (u32 (rate * 32) =? 0) && negb (u32 (rate * clock_div hw rate * 2) =? 0).

(** The rate the commented-out trace line of [i2s_begin] prints for a pair
    of dividers. *)
Definition reconstructed_rate (hw : peri) (dividers : Z * Z) : Z :=
  I2SBASEFREQ hw / (fst dividers * snd dividers * 2).

Definition is_render (e : event) : bool :=
  match e with EvRender _ _ _ _ => true | _ => false end.
Definition is_free (e : event) : bool :=
  match e with EvFree _ => true | _ => false end.

(** How often the render callback has been invoked. *)
Definition render_calls (t : list event) : nat := length (filter is_render t).

(** The descriptor [x] as [i2s_slc_begin] leaves it, for a pool at [p]. *)
Definition wired_item (hw : peri) (p x : Z) : slc_queue_item :=
  {| blocksize := bitfield 12 (SLC_BUF_LEN * 4);
     datalen := bitfield 12 (SLC_BUF_LEN * 4);
     unused := bitfield 5 0;
     sub_sof := bitfield 1 0;
     eof := bitfield 1 1;
     owner := bitfield 1 1;
     buf_ptr := u32 (u32 (p + x * SLC_BUF_LEN * 4));
     next_link_ptr :=
       u32 (if x <? SLC_BUF_CNT - 1 then item_addr hw (x + 1) else item_addr hw 0) |}.

(** Following [next_link_ptr] from the descriptor at address [a]. *)
Definition next_of (hw : peri) (s : state) (a : Z) : option Z :=
  match item_index hw a with
  | Some i => next_link_ptr <$> i2s_slc_items s !! i
  | None => None
  end.

Fixpoint follow (hw : peri) (s : state) (n : nat) (a : Z) : option Z :=
  match n with
  | O => Some a
  | S n' => match next_of hw s a with
            | Some b => follow hw s n' b
            | None => None
            end
  end.

(** The teardown steps of stop, as classes of events. *)
Inductive stop_step :=
| StepIntrDisable | StepClearFlags | StepClearDescriptors
| StepClockDisable | StepReleasePool | StepRestorePins.

Definition stop_step_of (e : event) : option stop_step :=
  match e with
  | EvIntrDisable => Some StepIntrDisable
  | EvWrite SLCIC _ => Some StepClearFlags
  | EvWrite SLCTXL _ | EvWrite SLCRXL _ => Some StepClearDescriptors
  | EvAudioClock 0 => Some StepClockDisable
  | EvFree _ => Some StepReleasePool
  | EvPinMode _ _ => Some StepRestorePins
  | _ => None
  end.

(** The steps a trace performs, in the order it performs them. *)
Definition steps_of (t : list event) : list stop_step := omap stop_step_of t.

#[global] Instance stop_step_eq_dec : EqDecision stop_step.
Proof. solve_decision. Defined.

(** A run of equal steps counts as one step. *)
Fixpoint squash (l : list stop_step) : list stop_step :=
  match l with
  | [] => []
  | a :: l' =>
      match l' with
      | b :: _ => if decide (a = b) then squash l' else a :: squash l'
      | [] => [a]
      end
  end.

(** The order of the teardown as the specification lists it. *)
Definition spec_stop_order : list stop_step :=
  [StepIntrDisable; StepClearFlags; StepClearDescriptors;
   StepClockDisable; StepReleasePool; StepRestorePins].

(** The order of the teardown in [i2s_end]. *)
Definition code_stop_order : list stop_step :=
  [StepClockDisable; StepIntrDisable; StepClearFlags;
   StepClearDescriptors; StepReleasePool; StepRestorePins].

(** The Underrun Guard after [v] is pushed on a guard holding [len]
    entries of [q]: at capacity the front entry leaves first. *)
Definition guard_after_push (q : list Z) (len v : Z) : list Z :=
  if SLC_BUF_CNT - 1 <=? len
  then drop 1 q ++ [v]
  else <[Z.to_nat len := v]> q.

(** What a start that ran to its end leaves behind, from [s0] to [s1]. *)
Record started (hw : peri) (fn rc p : Z) (s0 s1 : state) : Prop := {
  started_queue : i2s_slc_queue s1 = i2s_slc_queue s0;
  started_queue_len : i2s_slc_queue_len s1 = 0;
  started_buf_pntr : i2s_slc_buf_pntr s1 = p;
  started_items : i2s_slc_items s1 = map (wired_item hw p) [0; 1; 2; 3];
  started_render : i2s_render s1 = fn;
  started_refcon : i2s_render_refcon s1 = rc;
  started_enabled : intr_enabled s1 = true;
  started_attached : intr_attached s1 = true;
  started_heap : heap s1 = (if p =? 0 then heap s0 else {[ p ]} ∪ heap s0);
  started_trace : exists delta,
    trace s1 = trace s0 ++ delta /\
    filter is_render delta =
      map (fun x => EvRender fn rc (u32 (p + x * SLC_BUF_LEN * 4)) SLC_BUF_LEN)
          [0; 1; 2; 3] /\
    filter is_free delta = []
}.

(** The events of one stop, from state [s]. *)
Definition stop_trace (hw : peri) (s : state) : list event :=
  let p := i2s_slc_buf_pntr s in
  let c1 := u32 (Z.land (regs s I2SC) (not32 (I2SRST hw))) in
  let c2 := u32 (Z.lor c1 (I2SRST hw)) in
  let c3 := u32 (Z.land c2 (not32 (I2SRST hw))) in
  [EvAudioClock 0;
   EvIntrDisable;
   EvWrite SLCIC (u32 0xFFFFFFFF);
   EvWrite SLCIE (u32 0);
   EvWrite SLCTXL (u32 (Z.land (regs s SLCTXL) (not32 (Z.shiftl (SLCTXLAM hw) (SLCTXLA hw)))));
   EvWrite SLCRXL (u32 (Z.land (regs s SLCRXL) (not32 (Z.shiftl (SLCRXLAM hw) (SLCRXLA hw)))))]
  ++ (if p =? 0 then [] else [EvFree p])
  ++ [EvWrite I2SC c1; EvWrite I2SC c2; EvWrite I2SC c3;
      EvPinMode 2 (INPUT hw); EvPinMode 3 (FUNCTION_0 hw); EvPinMode 15 (INPUT hw)].

(** The events a computation appends to the trace. *)
Definition events_of {A} (m : M A) (s : state) : list event :=
  match m s with
  | Ok (_, s') => drop (length (trace s)) (trace s')
  | Fault _ => []
  end.

(** A driver state in mid-session: power-on, then a start at 16 kHz whose
    allocation returned a block. *)
Definition running : state :=
  match exec (i2s_begin esp8266 0x40201234 0 16000 0x3FFF0000) power_on with
  | Ok s => s
  | Fault _ => power_on
  end.

(** The entries the Underrun Guard holds, oldest first: the first
    [i2s_slc_queue_len] slots of the array. *)
Definition guard_contents (s : state) : list Z :=
  take (Z.to_nat (i2s_slc_queue_len s)) (i2s_slc_queue s).

(** The buffer of the descriptor an interrupt reports as finished, read
    from the descriptor array [items]. *)
Definition finished_buf (hw : peri) (items : list slc_queue_item) (e : Z * Z) : option Z :=
  match item_index hw (snd e) with
  | Some i => buf_ptr <$> items !! i
  | None => None
  end.

(** The last [n] elements of a list (all of it when it is shorter). *)
Definition last_n {A} (n : nat) (l : list A) : list A := drop (length l - n) l.

(** The completion interrupt of descriptor [x], as the hardware raises it. *)
Definition completion_of (hw : peri) (x : Z) : Z * Z :=
  (SLCIRXEOF hw, item_addr hw x).

Definition is_write (e : event) : bool :=
  match e with EvWrite _ _ => true | _ => false end.
Definition is_malloc (e : event) : bool :=
  match e with EvMalloc _ _ => true | _ => false end.



(** The events the completion handler is made of. *)
Definition is_handler_event (e : event) : bool :=
  match e with
  | EvWrite SLCIC _ | EvIntrDisable | EvIntrEnable | EvRender _ _ _ _ => true
  | _ => false
  end.

(** An event with the value of a register write forgotten. *)
Definition erase_value (e : event) : event :=
  match e with
  | EvWrite r _ => EvWrite r 0
  | _ => e
  end.

(** [m] called [n] times in a row. *)
Fixpoint repeat_m (n : nat) (m : M unit) : M unit :=
  match n with
  | O => ret tt
  | S n' => m ;; repeat_m n' m
  end.

(** ** Running the code symbolically *)

(** Unfolds the monad, the primitives and the record plumbing. *)
Ltac mred :=
  cbv beta iota zeta delta
    [mbind M_bind bind mret M_ret ret modify get emit write read set_bits
     clr_bits ETS_SLC_INTR_DISABLE ETS_SLC_INTR_ENABLE ETS_SLC_INTR_ATTACH
     pinMode I2S_CLK_ENABLE I2S_CLK_DISABLE exec raise upd reg_eqb
     i2s_slc_queue i2s_slc_queue_len i2s_slc_buf_pntr i2s_slc_items
     i2s_render i2s_render_refcon regs intr_enabled intr_attached heap trace
     with_queue with_queue_len with_buf_pntr with_items with_render
     with_regs with_intr_enabled with_intr_attached with_heap with_trace].

Ltac proj_all :=
  cbn [i2s_slc_queue i2s_slc_queue_len i2s_slc_buf_pntr i2s_slc_items
       i2s_render i2s_render_refcon regs intr_enabled intr_attached heap trace
       with_queue with_queue_len with_buf_pntr with_items with_render
       with_regs with_intr_enabled with_intr_attached with_heap with_trace] in *.

Ltac destruct_state s :=
  let q := fresh "q" in let len := fresh "len" in let bp := fresh "bp" in
  let items := fresh "items" in let fn := fresh "fn" in let rc := fresh "rc" in
  let rg := fresh "rg" in let ie := fresh "ie" in let ia := fresh "ia" in
  let hp := fresh "hp" in let tr := fresh "tr" in
  destruct s as [q len bp items fn rc rg ie ia hp tr]; proj_all.

(** Flattens [((t ++ [a]) ++ [b]) ++ ...] into [t ++ [a; b; ...]]. *)
Ltac flat_trace := rewrite <- ?app_assoc; cbn [app].

Lemma exec_ok {A} (m : M A) s a s' : m s = Ok (a, s') -> exec m s = Ok s'.
Proof. unfold exec. intros ->. reflexivity. Qed.

Lemma exec_fault {A} (m : M A) s f : m s = Fault f -> exec m s = Fault f.
Proof. unfold exec. intros ->. reflexivity. Qed.

Lemma render_calls_app t1 t2 :
  render_calls (t1 ++ t2) = (render_calls t1 + render_calls t2)%nat.
Proof. unfold render_calls. rewrite filter_app, length_app. reflexivity. Qed.

Section Runs.

Context (hw : peri).

Lemma deref_item_ok a i d s :
  item_index hw a = Some i -> i2s_slc_items s !! i = Some d ->
  deref_item hw a s = Ok (d, s).
Proof.
  destruct_state s. intros Ha Hd. unfold deref_item. mred.
  rewrite Ha. mred. rewrite Hd. reflexivity.
Qed.

Lemma item_index_lt a i :
  item_index hw a = Some i -> (i < Z.to_nat SLC_BUF_CNT)%nat.
Proof.
  unfold item_index, sizeof_item, SLC_BUF_CNT.
  destruct (0 <=? a - addr_i2s_slc_items hw) eqn:H0; [|discriminate].
  destruct (a - addr_i2s_slc_items hw <? 12 * 4) eqn:H1; [|discriminate].
  destruct ((a - addr_i2s_slc_items hw) mod 12 =? 0); [|discriminate].
  cbn [andb]. intros [= <-].
  apply Z.leb_le in H0. apply Z.ltb_lt in H1.
  assert ((a - addr_i2s_slc_items hw) / 12 < 4) by (apply Z.div_lt_upper_bound; lia).
  assert (0 <= (a - addr_i2s_slc_items hw) / 12) by (apply Z.div_pos; lia).
  lia.
Qed.

Lemma item_index_addr x :
  0 <= x < SLC_BUF_CNT -> item_index hw (item_addr hw x) = Some (Z.to_nat x).
Proof.
  unfold item_index, item_addr, sizeof_item, SLC_BUF_CNT. intros Hx.
  replace (addr_i2s_slc_items hw + 12 * x - addr_i2s_slc_items hw) with (x * 12) by ring.
  rewrite Z.mod_mul, Z.div_mul by lia.
  replace (0 <=? x * 12) with true by (symmetry; apply Z.leb_le; lia).
  replace (x * 12 <? 12 * 4) with true by (symmetry; apply Z.ltb_lt; lia).
  reflexivity.
Qed.

Lemma call_render_ok buf len s :
  i2s_render s <> 0 ->
  call_render buf len s =
  Ok (tt, with_trace (trace s ++ [EvRender (i2s_render s) (i2s_render_refcon s) buf len]) s).
Proof.
  destruct_state s. intros Hr. apply Z.eqb_neq in Hr.
  unfold call_render. mred. rewrite Hr. reflexivity.
Qed.

Lemma store_item_ok x f d s :
  i2s_slc_items s !! Z.to_nat x = Some d ->
  store_item x f s = Ok (tt, with_items (<[Z.to_nat x := f d]> (i2s_slc_items s)) s).
Proof. destruct_state s. intros H. unfold store_item. mred. rewrite H. reflexivity. Qed.

(** One turn of the loop of [i2s_slc_begin]: one render call, and
    descriptor [x] fully rewritten. *)
Lemma slc_begin_body_ok x s :
  (Z.to_nat x < length (i2s_slc_items s))%nat -> i2s_render s <> 0 ->
  slc_begin_body hw x s =
  Ok (tt, with_items (<[Z.to_nat x := wired_item hw (i2s_slc_buf_pntr s) x]> (i2s_slc_items s))
            (with_trace (trace s ++ [EvRender (i2s_render s) (i2s_render_refcon s)
                                       (u32 (i2s_slc_buf_pntr s + x * SLC_BUF_LEN * 4)) SLC_BUF_LEN]) s)).
Proof.
  destruct_state s. intros Hx Hr.
  destruct (lookup_lt_is_Some_2 _ _ Hx) as [d Hd].
  unfold slc_begin_body. mred.
  rewrite call_render_ok by assumption. mred.
  erewrite store_item_ok by (mred; exact Hd). mred.
  do 7 (erewrite store_item_ok
          by (mred; apply list_lookup_insert_eq; rewrite ?length_insert; exact Hx); mred).
  rewrite !list_insert_insert_eq. reflexivity.
Qed.

(** The rate computation returns the two dividers when no divisor is zero. *)
Lemma i2s_dividers_ok rate s :
  rate_ok hw rate = true ->
  i2s_dividers hw rate s = Ok ((clock_div hw rate, bck_div hw rate), s).
Proof.
  unfold rate_ok. intros H. apply andb_true_iff in H as [H1 H2].
  apply negb_true_iff in H1, H2. unfold clock_div in H2.
  unfold i2s_dividers, udiv. mred. rewrite H1. mred. rewrite H2. reflexivity.
Qed.

(** ... and traps otherwise. *)
Lemma i2s_dividers_fault rate s :
  rate_ok hw rate = false -> i2s_dividers hw rate s = Fault DivideByZero.
Proof.
  unfold rate_ok, clock_div. intros H.
  unfold i2s_dividers, udiv. mred.
  destruct (u32 (rate * 32) =? 0); [reflexivity|]. mred.
  cbn [negb andb] in H. apply negb_false_iff in H. rewrite H. reflexivity.
Qed.

End Runs.

Section Lifecycle.

Context (hw : peri).

Lemma i2s_slc_begin_ok p s :
  length (i2s_slc_items s) = Z.to_nat SLC_BUF_CNT -> i2s_render s <> 0 ->
  exists s', i2s_slc_begin hw p s = Ok (tt, s') /\
             started hw (i2s_render s) (i2s_render_refcon s) p s s'.
Proof.
  destruct_state s. intros Hi Hr.
  change (Z.to_nat SLC_BUF_CNT) with 4%nat in Hi.
  destruct items as [|d0 [|d1 [|d2 [|d3 [|]]]]]; try discriminate.
  unfold i2s_slc_begin, malloc. mred.
  change (Z.to_nat SLC_BUF_CNT) with 4%nat. cbn [for_]. mred.
  do 4 (rewrite slc_begin_body_ok by (mred; first [simpl; lia | assumption]); mred).
  eexists. split; [reflexivity|].
  split; mred; try reflexivity.
  eexists. split; [flat_trace; reflexivity|]. split; reflexivity.
Qed.

Lemma i2s_begin_ok fn rc rate p s :
  length (i2s_slc_items s) = Z.to_nat SLC_BUF_CNT -> fn <> 0 ->
  rate_ok hw rate = true ->
  exists s', i2s_begin hw fn rc rate p s = Ok (tt, s') /\ started hw fn rc p s s'.
Proof.
  destruct_state s. intros Hi Hr Hrate.
  change (Z.to_nat SLC_BUF_CNT) with 4%nat in Hi.
  destruct items as [|d0 [|d1 [|d2 [|d3 [|]]]]]; try discriminate.
  unfold i2s_begin, i2s_slc_begin, malloc, i2s_reset. mred.
  change (Z.to_nat SLC_BUF_CNT) with 4%nat. cbn [for_]. mred.
  do 4 (rewrite slc_begin_body_ok by (mred; first [simpl; lia | assumption]); mred).
  rewrite i2s_dividers_ok by assumption. mred.
  eexists. split; [reflexivity|].
  split; mred; try reflexivity.
  eexists. split; [flat_trace; reflexivity|]. split; reflexivity.
Qed.

(** A start whose rate computation divides by zero traps, whatever the
    allocator returned. *)
Lemma i2s_begin_fault fn rc rate p s :
  length (i2s_slc_items s) = Z.to_nat SLC_BUF_CNT -> fn <> 0 ->
  rate_ok hw rate = false ->
  i2s_begin hw fn rc rate p s = Fault DivideByZero.
Proof.
  destruct_state s. intros Hi Hr Hrate.
  change (Z.to_nat SLC_BUF_CNT) with 4%nat in Hi.
  destruct items as [|d0 [|d1 [|d2 [|d3 [|]]]]]; try discriminate.
  unfold i2s_begin, i2s_slc_begin, malloc, i2s_reset. mred.
  change (Z.to_nat SLC_BUF_CNT) with 4%nat. cbn [for_]. mred.
  do 4 (rewrite slc_begin_body_ok by (mred; first [simpl; lia | assumption]); mred).
  rewrite i2s_dividers_fault by assumption. reflexivity.
Qed.

(** Stop on a state whose pool pointer is null or names a live block. *)
Lemma i2s_end_ok s :
  i2s_slc_buf_pntr s = 0 \/ i2s_slc_buf_pntr s ∈ heap s ->
  exists s', i2s_end hw s = Ok (tt, s') /\
    i2s_slc_queue s' = i2s_slc_queue s /\
    i2s_slc_queue_len s' = i2s_slc_queue_len s /\
    i2s_slc_buf_pntr s' = i2s_slc_buf_pntr s /\
    i2s_slc_items s' = i2s_slc_items s /\
    i2s_render s' = i2s_render s /\
    i2s_render_refcon s' = i2s_render_refcon s /\
    intr_enabled s' = false /\
    intr_attached s' = intr_attached s /\
    heap s' = (if i2s_slc_buf_pntr s =? 0 then heap s
               else heap s ∖ {[ i2s_slc_buf_pntr s ]}) /\
    trace s' = trace s ++ stop_trace hw s.
Proof.
  destruct_state s. intros Hp.
  unfold i2s_end, i2s_slc_end, i2s_reset, free, stop_trace. mred.
  destruct (bp =? 0) eqn:Hz; mred.
  - eexists. split; [reflexivity|]. mred. flat_trace. repeat split.
  - destruct (decide (bp ∈ hp)) as [Hin|Hout].
    + mred. eexists. split; [reflexivity|]. mred. flat_trace. repeat split.
    + apply Z.eqb_neq in Hz. destruct Hp; contradiction.
Qed.

(** Stop on a state whose pool pointer names a block that is not
    allocated: the [free] is undefined. *)
Lemma i2s_end_invalid_free s :
  i2s_slc_buf_pntr s <> 0 -> i2s_slc_buf_pntr s ∉ heap s ->
  i2s_end hw s = Fault (InvalidFree (i2s_slc_buf_pntr s)).
Proof.
  destruct_state s. intros Hz Hout. apply Z.eqb_neq in Hz.
  unfold i2s_end, i2s_slc_end, i2s_reset, free. mred.
  rewrite Hz. mred.
  destruct (decide (bp ∈ hp)) as [Hin|_]; [contradiction|]. reflexivity.
Qed.

End Lifecycle.

(** ** The completion handler *)

Section Handler.

Context (hw : peri).

(** Popping a full queue: the front comes back, the other two entries move
    down one slot. *)
Lemma i2s_slc_queue_next_item_full a b c s :
  i2s_slc_queue s = [a; b; c] -> i2s_slc_queue_len s = 3 ->
  i2s_slc_queue_next_item s = Ok (a, with_queue [b; c; c] (with_queue_len 2 s)).
Proof.
  destruct_state s. intros -> ->. vm_compute. reflexivity.
Qed.

(** The handler on an interrupt without the RX end-of-frame bit: the
    pending flags are acknowledged and nothing else happens. *)
Lemma slc_interrupt_other status eda s :
  Z.land status (SLCIRXEOF hw) = 0 ->
  exists s', slc_interrupt hw status eda s = Ok (tt, s') /\
    i2s_slc_queue s' = i2s_slc_queue s /\
    i2s_slc_queue_len s' = i2s_slc_queue_len s /\
    i2s_slc_buf_pntr s' = i2s_slc_buf_pntr s /\
    i2s_slc_items s' = i2s_slc_items s /\
    i2s_render s' = i2s_render s /\
    i2s_render_refcon s' = i2s_render_refcon s /\
    intr_enabled s' = intr_enabled s /\
    intr_attached s' = intr_attached s /\
    heap s' = heap s /\
    trace s' = trace s ++ [EvWrite SLCIC (u32 0xFFFFFFFF)].
Proof.
  destruct_state s. intros He.
  unfold slc_interrupt, i2s_slc_isr. mred. rewrite He. mred.
  eexists. split; [reflexivity|]. mred. repeat split.
Qed.

(** The handler on a completion event for the descriptor [d]. *)
Lemma slc_interrupt_eof status eda i d s :
  arrays_ok s -> guard_ok s -> i2s_render s <> 0 ->
  Z.land status (SLCIRXEOF hw) <> 0 ->
  item_index hw eda = Some i -> i2s_slc_items s !! i = Some d ->
  exists s', slc_interrupt hw status eda s = Ok (tt, s') /\
    i2s_slc_queue s' =
      guard_after_push (i2s_slc_queue s) (i2s_slc_queue_len s) (buf_ptr d) /\
    i2s_slc_queue_len s' = Z.min (i2s_slc_queue_len s + 1) (SLC_BUF_CNT - 1) /\
    i2s_slc_buf_pntr s' = i2s_slc_buf_pntr s /\
    i2s_slc_items s' = i2s_slc_items s /\
    i2s_render s' = i2s_render s /\
    i2s_render_refcon s' = i2s_render_refcon s /\
    intr_enabled s' = true /\
    intr_attached s' = intr_attached s /\
    heap s' = heap s /\
    trace s' = trace s ++
      [EvWrite SLCIC (u32 0xFFFFFFFF);
       EvIntrDisable;
       EvRender (i2s_render s) (i2s_render_refcon s) (buf_ptr d) SLC_BUF_LEN;
       EvIntrEnable].
Proof.
  destruct_state s. intros [Hq Hi] Hg Hr He Ha Hd.
  unfold guard_ok in Hg. proj_all.
  change (Z.to_nat (SLC_BUF_CNT - 1)) with 3%nat in Hq.
  destruct q as [|a [|b [|c [|]]]]; try discriminate.
  apply Z.eqb_neq in He.
  unfold slc_interrupt, i2s_slc_isr. mred. rewrite He. mred. cbn [negb]. mred.
  erewrite deref_item_ok by (mred; eassumption). mred.
  rewrite call_render_ok by (mred; assumption). mred.
  assert (Hl : len = 0 \/ len = 1 \/ len = 2 \/ len = 3)
    by (unfold SLC_BUF_CNT in Hg; lia).
  destruct Hl as [-> | [-> | [-> | ->]]].
  - change (SLC_BUF_CNT - 1 <=? 0) with false. mred.
    erewrite deref_item_ok by (mred; eassumption). mred.
    unfold store_queue. mred. cbn [length].
    change ((0 <=? 0) && (0 <? Z.of_nat 3)) with true. mred.
    eexists. split; [reflexivity|]. mred. flat_trace. repeat split.
  - change (SLC_BUF_CNT - 1 <=? 1) with false. mred.
    erewrite deref_item_ok by (mred; eassumption). mred.
    unfold store_queue. mred. cbn [length].
    change ((0 <=? 1) && (1 <? Z.of_nat 3)) with true. mred.
    eexists. split; [reflexivity|]. mred. flat_trace. repeat split.
  - change (SLC_BUF_CNT - 1 <=? 2) with false. mred.
    erewrite deref_item_ok by (mred; eassumption). mred.
    unfold store_queue. mred. cbn [length].
    change ((0 <=? 2) && (2 <? Z.of_nat 3)) with true. mred.
    eexists. split; [reflexivity|]. mred. flat_trace. repeat split.
  - change (SLC_BUF_CNT - 1 <=? 3) with true. mred.
    erewrite i2s_slc_queue_next_item_full by reflexivity. mred.
    erewrite deref_item_ok by (mred; eassumption). mred.
    unfold store_queue. mred. cbn [length].
    change (u8 2) with 2.
    change ((0 <=? 2) && (2 <? Z.of_nat 3)) with true. mred.
    eexists. split; [reflexivity|]. mred. flat_trace. repeat split.
Qed.

End Handler.

(** ** Runs of completion events *)

Section Completions.

Context (hw : peri).

Lemma is_completion_inv status eda s :
  arrays_ok s -> is_completion hw (status, eda) = true ->
  Z.land status (SLCIRXEOF hw) <> 0 /\
  exists i d, item_index hw eda = Some i /\ i2s_slc_items s !! i = Some d.
Proof.
  intros [_ Hi] H. unfold is_completion in H. cbn [fst snd] in H.
  apply andb_true_iff in H as [H1 H2].
  apply negb_true_iff, Z.eqb_neq in H1. split; [assumption|].
  destruct (item_index hw eda) as [i|] eqn:Ha; [|discriminate].
  pose proof (item_index_lt hw _ _ Ha) as Hlt. rewrite <- Hi in Hlt.
  destruct (lookup_lt_is_Some_2 _ _ Hlt) as [d Hd]. eauto.
Qed.

Lemma guard_after_push_length q len v :
  length q = Z.to_nat (SLC_BUF_CNT - 1) -> 0 <= len <= SLC_BUF_CNT - 1 ->
  length (guard_after_push q len v) = Z.to_nat (SLC_BUF_CNT - 1).
Proof.
  intros Hq Hl. unfold guard_after_push.
  destruct (SLC_BUF_CNT - 1 <=? len).
  - rewrite length_app, length_drop, Hq. reflexivity.
  - rewrite length_insert. exact Hq.
Qed.

(** Any run of completion events from a state with a sound guard returns,
    keeps the guard sound, and calls the render callback once per event. *)
Lemma completions_run es : forall s,
  arrays_ok s -> guard_ok s -> i2s_render s <> 0 ->
  forallb (is_completion hw) es = true ->
  exists s',
    slc_interrupts hw es s = Ok (tt, s') /\
    arrays_ok s' /\
    i2s_slc_queue_len s' =
      Z.min (i2s_slc_queue_len s + Z.of_nat (length es)) (SLC_BUF_CNT - 1) /\
    i2s_slc_items s' = i2s_slc_items s /\
    i2s_render s' = i2s_render s /\
    exists delta,
      trace s' = trace s ++ delta /\ render_calls delta = length es.
Proof.
  induction es as [|[status eda] es IH]; intros s Ha Hg Hr Hes.
  - exists s. cbn. unfold guard_ok in Hg.
    repeat split; try (apply Ha); try lia.
    exists []. rewrite app_nil_r. split; reflexivity.
  - cbn [forallb] in Hes. apply andb_true_iff in Hes as [He Hes].
    destruct (is_completion_inv _ _ _ Ha He) as (Hbit & i & d & Hi & Hd).
    destruct (slc_interrupt_eof hw _ _ _ _ _ Ha Hg Hr Hbit Hi Hd)
      as (s1 & Hrun & Hq1 & Hl1 & _ & Hit1 & Hr1 & _ & _ & _ & _ & Ht1).
    assert (Ha1 : arrays_ok s1).
    { destruct Ha as [Hqa Hia]. split.
      - rewrite Hq1. apply guard_after_push_length; assumption.
      - rewrite Hit1. exact Hia. }
    assert (Hg1 : guard_ok s1).
    { unfold guard_ok in *. rewrite Hl1. unfold SLC_BUF_CNT in *. lia. }
    destruct (IH s1 Ha1 Hg1 ltac:(rewrite Hr1; exact Hr) Hes)
      as (s2 & Hrun2 & Ha2 & Hl2 & Hit2 & Hr2 & delta & Ht2 & Hc2).
    exists s2. cbn [slc_interrupts]. unfold mbind, M_bind, bind.
    rewrite Hrun. split; [exact Hrun2|].
    split; [exact Ha2|]. split.
    { rewrite Hl2, Hl1. cbn [length]. unfold guard_ok, SLC_BUF_CNT in *. lia. }
    split; [congruence|]. split; [congruence|].
    eexists. split.
    + rewrite Ht2, Ht1. rewrite <- app_assoc. reflexivity.
    + rewrite render_calls_app, Hc2. reflexivity.
Qed.

End Completions.

Lemma events_of_ok {A} (m : M A) s a s' delta :
  m s = Ok (a, s') -> trace s' = trace s ++ delta -> events_of m s = delta.
Proof.
  intros Hrun Ht. unfold events_of. rewrite Hrun, Ht.
  apply drop_app_length.
Qed.

(** * The claims *)

(** ** C1: a second stop *)

(** C1.  After a start whose allocation succeeded, the first stop releases
    the buffer pool but leaves [i2s_slc_buf_pntr] pointing at it, so a second
    stop passes the null test and calls [free] on the released block again:
    the double stop is a double free. *)
Theorem double_stop_frees_twice hw s0 fn rc rate p :
  arrays_ok s0 -> fn <> 0 -> rate_ok hw rate = true -> p <> 0 ->
  exists s1 s2,
    exec (i2s_begin hw fn rc rate p) s0 = Ok s1 /\
    exec (i2s_end hw) s1 = Ok s2 /\
    i2s_slc_buf_pntr s2 = p /\
    (p ∉ heap s2) /\
    exec (i2s_end hw) s2 = Fault (InvalidFree p).
Proof.
  intros [_ Hi] Hfn Hrate Hp.
  destruct (i2s_begin_ok hw fn rc rate p s0 Hi Hfn Hrate) as (s1 & Hrun1 & Hs1).
  destruct Hs1 as [_ _ Hbuf _ _ _ _ _ Hheap _].
  apply Z.eqb_neq in Hp. rewrite Hp in Hheap.
  assert (Hin : i2s_slc_buf_pntr s1 ∈ heap s1).
  { rewrite Hbuf, Hheap. apply elem_of_union_l, elem_of_singleton. reflexivity. }
  destruct (i2s_end_ok hw s1 (or_intror Hin))
    as (s2 & Hrun2 & _ & _ & Hbuf2 & _ & _ & _ & _ & _ & Hheap2 & _).
  rewrite Hbuf, Hp in Hheap2. rewrite Hbuf in Hbuf2.
  assert (Hout : p ∉ heap s2).
  { rewrite Hheap2. intros Hc. apply elem_of_difference in Hc as [_ Hc].
    apply Hc, elem_of_singleton. reflexivity. }
  exists s1, s2.
  split; [exact (exec_ok _ _ _ _ Hrun1)|].
  split; [exact (exec_ok _ _ _ _ Hrun2)|].
  split; [exact Hbuf2|]. split; [exact Hout|].
  pose proof (i2s_end_invalid_free hw s2) as Hf. rewrite Hbuf2 in Hf.
  apply exec_fault, Hf; [apply Z.eqb_neq; exact Hp | exact Hout].
Qed.

Lemma double_stop_frees_twice_witness :
  exists s1 s2,
    exec (i2s_begin esp8266 0x40201234 0 16000 0x3FFF0000) power_on = Ok s1 /\
    exec (i2s_end esp8266) s1 = Ok s2 /\
    i2s_slc_buf_pntr s2 = 0x3FFF0000 /\
    (0x3FFF0000 ∉ heap s2) /\
    exec (i2s_end esp8266) s2 = Fault (InvalidFree 0x3FFF0000).
Proof.
  apply (double_stop_frees_twice esp8266 power_on 0x40201234 0 16000 0x3FFF0000).
  - split; reflexivity.
  - discriminate.
  - reflexivity.
  - discriminate.
Defined.

(** ** C2: a failed allocation *)

(** C2, as the code contradicts it.  With [malloc] returning null, start
    at 16 kHz from power-on returns normally, having called the render
    callback on the four slots of a pool at address 0, wired the ring over
    them, and attached and enabled the interrupt. *)
Lemma null_pool_start_attaches_interrupt :
  exists s,
    exec (i2s_begin esp8266 0x40201234 0 16000 0) power_on = Ok s /\
    intr_attached power_on = false /\
    intr_attached s = true /\
    intr_enabled s = true /\
    map buf_ptr (i2s_slc_items s) = [0; 256; 512; 768] /\
    In EvIntrAttach (trace s) /\
    render_calls (trace s) = 4%nat.
Proof.
  eexists. split; [vm_compute; reflexivity|].
  vm_compute. repeat split. tauto.
Qed.

(** C2, amended.  Start has no result and tests nothing: when [malloc]
    returns null the failure is recorded only as a null [i2s_slc_buf_pntr],
    no block is allocated, and the stop that follows releases nothing. *)
Theorem failed_allocation_leaves_null_pool hw s0 fn rc rate :
  arrays_ok s0 -> fn <> 0 -> rate_ok hw rate = true ->
  exists s1 s2,
    exec (i2s_begin hw fn rc rate 0) s0 = Ok s1 /\
    i2s_slc_buf_pntr s1 = 0 /\
    heap s1 = heap s0 /\
    exec (i2s_end hw) s1 = Ok s2 /\
    filter is_free (events_of (i2s_end hw) s1) = [] /\
    heap s2 = heap s0.
Proof.
  intros [_ Hi] Hfn Hrate.
  destruct (i2s_begin_ok hw fn rc rate 0 s0 Hi Hfn Hrate) as (s1 & Hrun1 & Hs1).
  destruct Hs1 as [_ _ Hbuf _ _ _ _ _ Hheap _]. cbn in Hheap.
  destruct (i2s_end_ok hw s1 (or_introl Hbuf))
    as (s2 & Hrun2 & _ & _ & _ & _ & _ & _ & _ & _ & Hheap2 & Ht2).
  rewrite Hbuf in Hheap2. cbn in Hheap2.
  exists s1, s2.
  split; [exact (exec_ok _ _ _ _ Hrun1)|].
  split; [exact Hbuf|]. split; [exact Hheap|].
  split; [exact (exec_ok _ _ _ _ Hrun2)|]. split.
  - rewrite (events_of_ok _ _ _ _ _ Hrun2 Ht2).
    unfold stop_trace. rewrite Hbuf. reflexivity.
  - congruence.
Qed.

Lemma failed_allocation_leaves_null_pool_witness :
  exists s1 s2,
    exec (i2s_begin esp8266 0x40201234 0 16000 0) power_on = Ok s1 /\
    i2s_slc_buf_pntr s1 = 0 /\
    heap s1 = heap power_on /\
    exec (i2s_end esp8266) s1 = Ok s2 /\
    filter is_free (events_of (i2s_end esp8266) s1) = [] /\
    heap s2 = heap power_on.
Proof.
  apply (failed_allocation_leaves_null_pool esp8266 power_on 0x40201234 0 16000).
  - split; reflexivity.
  - discriminate.
  - reflexivity.
Defined.

(** ** C3: the Underrun Guard is bounded *)

(** C3.  After a start and any run of completion events the handler has
    returned from each of them, the guard's array still has its
    [SLC_BUF_CNT - 1 = 3] slots and its length is the number of events capped
    at 3, hence never above 3.  When it is 3, a further completion event for
    a descriptor [d] turns the guard [a; b; c] into [b; c; buf_ptr d]: the
    oldest entry alone is dropped, the new one is at the back, and the length
    is 3 again. *)
Theorem underrun_guard_bounded hw s0 fn rc rate p es :
  arrays_ok s0 -> fn <> 0 -> rate_ok hw rate = true ->
  forallb (is_completion hw) es = true ->
  exists s1 s2,
    exec (i2s_begin hw fn rc rate p) s0 = Ok s1 /\
    exec (slc_interrupts hw es) s1 = Ok s2 /\
    length (i2s_slc_queue s2) = 3%nat /\
    i2s_slc_queue_len s2 = Z.min (Z.of_nat (length es)) (SLC_BUF_CNT - 1) /\
    0 <= i2s_slc_queue_len s2 <= SLC_BUF_CNT - 1 /\
    (i2s_slc_queue_len s2 = SLC_BUF_CNT - 1 ->
     forall status eda, is_completion hw (status, eda) = true ->
     exists a b c d s3,
       i2s_slc_queue s2 = [a; b; c] /\
       deref_item hw eda s2 = Ok (d, s2) /\
       exec (slc_interrupt hw status eda) s2 = Ok s3 /\
       i2s_slc_queue s3 = [b; c; buf_ptr d] /\
       i2s_slc_queue_len s3 = SLC_BUF_CNT - 1).
Proof.
  intros Ha0 Hfn Hrate Hes. pose proof Ha0 as [Hq0 Hi0].
  destruct (i2s_begin_ok hw fn rc rate p s0 Hi0 Hfn Hrate) as (s1 & Hrun1 & Hs1).
  destruct Hs1 as [Hq1 Hl1 _ Hit1 Hr1 _ _ _ _ _].
  assert (Ha1 : arrays_ok s1).
  { split; [rewrite Hq1; exact Hq0 | rewrite Hit1; reflexivity]. }
  assert (Hg1 : guard_ok s1) by (unfold guard_ok, SLC_BUF_CNT; rewrite Hl1; lia).
  assert (Hn1 : i2s_render s1 <> 0) by (rewrite Hr1; exact Hfn).
  destruct (completions_run hw es s1 Ha1 Hg1 Hn1 Hes)
    as (s2 & Hrun2 & Ha2 & Hl2 & Hit2 & Hr2 & _).
  rewrite Hl1, Z.add_0_l in Hl2.
  assert (Hg2 : guard_ok s2) by (unfold guard_ok, SLC_BUF_CNT in *; rewrite Hl2; lia).
  exists s1, s2.
  split; [exact (exec_ok _ _ _ _ Hrun1)|].
  split; [exact (exec_ok _ _ _ _ Hrun2)|].
  split; [apply Ha2|]. split; [exact Hl2|]. split; [exact Hg2|].
  intros Hfull status eda He.
  destruct (is_completion_inv hw _ _ _ Ha2 He) as (Hbit & i & d & Hi & Hd).
  destruct (slc_interrupt_eof hw _ _ _ _ _ Ha2 Hg2 ltac:(congruence) Hbit Hi Hd)
    as (s3 & Hrun3 & Hq3 & Hl3 & _).
  destruct Ha2 as [Hq2 _]. change (Z.to_nat (SLC_BUF_CNT - 1)) with 3%nat in Hq2.
  destruct (i2s_slc_queue s2) as [|a [|b [|c [|]]]] eqn:Hqs; try discriminate.
  exists a, b, c, d, s3.
  split; [reflexivity|].
  split; [exact (deref_item_ok hw _ _ _ _ Hi Hd)|].
  split; [exact (exec_ok _ _ _ _ Hrun3)|].
  rewrite Hfull in Hq3, Hl3. split; [exact Hq3 | exact Hl3].
Qed.

Lemma underrun_guard_bounded_witness :
  exists s1 s2,
    exec (i2s_begin esp8266 0x40201234 0 16000 0x3FFF0000) power_on = Ok s1 /\
    exec (slc_interrupts esp8266
            [(0x20000, 0x3FFE8000); (0x20000, 0x3FFE800C);
             (0x20000, 0x3FFE8018); (0x20000, 0x3FFE8024);
             (0x20000, 0x3FFE8000)]) s1 = Ok s2 /\
    length (i2s_slc_queue s2) = 3%nat /\
    i2s_slc_queue_len s2 = Z.min (Z.of_nat 5) (SLC_BUF_CNT - 1) /\
    0 <= i2s_slc_queue_len s2 <= SLC_BUF_CNT - 1 /\
    (i2s_slc_queue_len s2 = SLC_BUF_CNT - 1 ->
     forall status eda, is_completion esp8266 (status, eda) = true ->
     exists a b c d s3,
       i2s_slc_queue s2 = [a; b; c] /\
       deref_item esp8266 eda s2 = Ok (d, s2) /\
       exec (slc_interrupt esp8266 status eda) s2 = Ok s3 /\
       i2s_slc_queue s3 = [b; c; buf_ptr d] /\
       i2s_slc_queue_len s3 = SLC_BUF_CNT - 1).
Proof.
  apply (underrun_guard_bounded esp8266 power_on 0x40201234 0 16000 0x3FFF0000
           [(0x20000, 0x3FFE8000); (0x20000, 0x3FFE800C);
            (0x20000, 0x3FFE8018); (0x20000, 0x3FFE8024);
            (0x20000, 0x3FFE8000)]).
  - split; reflexivity.
  - discriminate.
  - reflexivity.
  - reflexivity.
Defined.

(** ** C4: how often the render callback runs *)

(** C4.  Start calls the render callback exactly four times, once on each
    buffer of the pool, and each of the [M] completion events that follow
    calls it exactly once: [M + 4] calls in all. *)
Theorem render_called_once_per_buffer_and_completion hw s0 fn rc rate p es :
  arrays_ok s0 -> fn <> 0 -> rate_ok hw rate = true ->
  forallb (is_completion hw) es = true ->
  exists s1 s2,
    exec (i2s_begin hw fn rc rate p) s0 = Ok s1 /\
    exec (slc_interrupts hw es) s1 = Ok s2 /\
    filter is_render (events_of (i2s_begin hw fn rc rate p) s0) =
      map (fun x => EvRender fn rc (u32 (p + x * SLC_BUF_LEN * 4)) SLC_BUF_LEN)
          [0; 1; 2; 3] /\
    render_calls (trace s1) = (render_calls (trace s0) + Z.to_nat SLC_BUF_CNT)%nat /\
    render_calls (events_of (slc_interrupts hw es) s1) = length es /\
    render_calls (trace s2) =
      (render_calls (trace s0) + (length es + Z.to_nat SLC_BUF_CNT))%nat.
Proof.
  intros Ha0 Hfn Hrate Hes. pose proof Ha0 as [Hq0 Hi0].
  destruct (i2s_begin_ok hw fn rc rate p s0 Hi0 Hfn Hrate) as (s1 & Hrun1 & Hs1).
  destruct Hs1 as [Hq1 Hl1 _ Hit1 Hr1 _ _ _ _ (d1 & Ht1 & Hf1 & _)].
  assert (Ha1 : arrays_ok s1).
  { split; [rewrite Hq1; exact Hq0 | rewrite Hit1; reflexivity]. }
  assert (Hg1 : guard_ok s1) by (unfold guard_ok, SLC_BUF_CNT; rewrite Hl1; lia).
  assert (Hn1 : i2s_render s1 <> 0) by (rewrite Hr1; exact Hfn).
  destruct (completions_run hw es s1 Ha1 Hg1 Hn1 Hes)
    as (s2 & Hrun2 & _ & _ & _ & _ & d2 & Ht2 & Hc2).
  assert (Hc1 : render_calls d1 = Z.to_nat SLC_BUF_CNT).
  { unfold render_calls. rewrite Hf1. reflexivity. }
  exists s1, s2.
  split; [exact (exec_ok _ _ _ _ Hrun1)|].
  split; [exact (exec_ok _ _ _ _ Hrun2)|].
  split; [rewrite (events_of_ok _ _ _ _ _ Hrun1 Ht1); exact Hf1|].
  split; [rewrite Ht1, render_calls_app, Hc1; reflexivity|].
  split; [rewrite (events_of_ok _ _ _ _ _ Hrun2 Ht2); exact Hc2|].
  rewrite Ht2, Ht1, !render_calls_app, Hc1, Hc2. lia.
Qed.

Lemma render_called_once_per_buffer_and_completion_witness :
  exists s1 s2,
    exec (i2s_begin esp8266 0x40201234 0 16000 0x3FFF0000) power_on = Ok s1 /\
    exec (slc_interrupts esp8266
            [(0x20000, 0x3FFE8000); (0x20000, 0x3FFE800C)]) s1 = Ok s2 /\
    filter is_render
      (events_of (i2s_begin esp8266 0x40201234 0 16000 0x3FFF0000) power_on) =
      map (fun x => EvRender 0x40201234 0 (u32 (0x3FFF0000 + x * SLC_BUF_LEN * 4))
                      SLC_BUF_LEN) [0; 1; 2; 3] /\
    render_calls (trace s1) =
      (render_calls (trace power_on) + Z.to_nat SLC_BUF_CNT)%nat /\
    render_calls
      (events_of (slc_interrupts esp8266
                    [(0x20000, 0x3FFE8000); (0x20000, 0x3FFE800C)]) s1) = 2%nat /\
    render_calls (trace s2) =
      (render_calls (trace power_on) + (2 + Z.to_nat SLC_BUF_CNT))%nat.
Proof.
  apply (render_called_once_per_buffer_and_completion
           esp8266 power_on 0x40201234 0 16000 0x3FFF0000
           [(0x20000, 0x3FFE8000); (0x20000, 0x3FFE800C)]).
  - split; reflexivity.
  - discriminate.
  - reflexivity.
  - reflexivity.
Defined.

(** ** C5: the descriptor ring *)

Section Ring.

Context (hw : peri) (Hlayout : layout_ok hw).

Lemma item_addr_u32 x :
  0 <= x < SLC_BUF_CNT -> u32 (item_addr hw x) = item_addr hw x.
Proof.
  destruct Hlayout as [H0 H1]. unfold item_addr, u32, sizeof_item, SLC_BUF_CNT in *.
  intros Hx. apply Z.mod_small. lia.
Qed.

Lemma next_of_wired p s x :
  i2s_slc_items s = map (wired_item hw p) [0; 1; 2; 3] ->
  0 <= x < SLC_BUF_CNT ->
  next_of hw s (item_addr hw x) = Some (item_addr hw ((x + 1) mod SLC_BUF_CNT)).
Proof.
  intros Hitems Hx. unfold next_of.
  rewrite item_index_addr by exact Hx. rewrite Hitems.
  assert (Hc : x = 0 \/ x = 1 \/ x = 2 \/ x = 3) by (unfold SLC_BUF_CNT in Hx; lia).
  destruct Hc as [-> | [-> | [-> | ->]]];
    match goal with
    | |- context [Z.to_nat ?n] =>
        let m := eval vm_compute in (Z.to_nat n) in change (Z.to_nat n) with m
    end;
    cbn [map lookup list_lookup fmap option_fmap option_map next_link_ptr wired_item].
  all: match goal with
       | |- context [if ?b then _ else _] =>
           let v := eval vm_compute in b in change b with v
       end; cbv iota.
  all: rewrite item_addr_u32 by (unfold SLC_BUF_CNT; lia); reflexivity.
Qed.

Lemma follow_wired p s k : forall x,
  i2s_slc_items s = map (wired_item hw p) [0; 1; 2; 3] ->
  0 <= x < SLC_BUF_CNT ->
  follow hw s k (item_addr hw x) =
  Some (item_addr hw ((x + Z.of_nat k) mod SLC_BUF_CNT)).
Proof.
  induction k as [|k IH]; intros x Hitems Hx.
  - cbn. rewrite Z.add_0_r, Z.mod_small by exact Hx. reflexivity.
  - cbn [follow]. rewrite (next_of_wired p) by assumption.
    rewrite IH by (try assumption; apply Z.mod_pos_bound; reflexivity).
    f_equal. f_equal. unfold SLC_BUF_CNT.
    rewrite Zplus_mod_idemp_l. f_equal. lia.
Qed.

Lemma item_addr_inj x y : item_addr hw x = item_addr hw y -> x = y.
Proof. unfold item_addr, sizeof_item. lia. Qed.

End Ring.

(** C5.  Once [i2s_slc_begin] has returned, following [next_link_ptr] four
    times from any of the four descriptors leads back to that descriptor,
    and following it one, two or three times does not. *)
Theorem descriptor_ring_is_cycle hw s0 p x :
  layout_ok hw -> arrays_ok s0 -> i2s_render s0 <> 0 ->
  0 <= x < SLC_BUF_CNT ->
  exists s1,
    exec (i2s_slc_begin hw p) s0 = Ok s1 /\
    follow hw s1 (Z.to_nat SLC_BUF_CNT) (item_addr hw x) = Some (item_addr hw x) /\
    forall k, (0 < k < Z.to_nat SLC_BUF_CNT)%nat ->
      follow hw s1 k (item_addr hw x) <> Some (item_addr hw x).
Proof.
  intros Hlayout [_ Hi0] Hfn Hx.
  destruct (i2s_slc_begin_ok hw p s0 Hi0 Hfn) as (s1 & Hrun1 & Hs1).
  destruct Hs1 as [_ _ _ Hitems _ _ _ _ _ _].
  exists s1. split; [exact (exec_ok _ _ _ _ Hrun1)|]. split.
  - rewrite (follow_wired hw Hlayout p) by assumption.
    f_equal. f_equal. unfold SLC_BUF_CNT in *.
    change (Z.of_nat (Z.to_nat 4)) with (1 * 4).
    rewrite Z.mod_add, Z.mod_small by lia. reflexivity.
  - intros k Hk Hc.
    rewrite (follow_wired hw Hlayout p) in Hc by assumption.
    injection Hc as Hc. apply item_addr_inj in Hc.
    unfold SLC_BUF_CNT in *. change (Z.to_nat 4) with 4%nat in Hk.
    assert (Hk' : k = 1%nat \/ k = 2%nat \/ k = 3%nat) by lia.
    assert (Hx' : x = 0 \/ x = 1 \/ x = 2 \/ x = 3) by lia.
    destruct Hk' as [-> | [-> | ->]];
      destruct Hx' as [-> | [-> | [-> | ->]]]; vm_compute in Hc; discriminate.
Qed.

Lemma descriptor_ring_is_cycle_witness :
  exists s1,
    exec (i2s_slc_begin esp8266 0x3FFF0000) (with_render 0x40201234 0 power_on) = Ok s1 /\
    follow esp8266 s1 (Z.to_nat SLC_BUF_CNT) (item_addr esp8266 2) =
      Some (item_addr esp8266 2) /\
    forall k, (0 < k < Z.to_nat SLC_BUF_CNT)%nat ->
      follow esp8266 s1 k (item_addr esp8266 2) <> Some (item_addr esp8266 2).
Proof.
  apply (descriptor_ring_is_cycle esp8266 (with_render 0x40201234 0 power_on)
           0x3FFF0000 2).
  - split; vm_compute; discriminate.
  - split; reflexivity.
  - discriminate.
  - unfold SLC_BUF_CNT. lia.
Defined.

(** ** C6: interrupt masking around the render callback *)

Section Masking.

Context (hw : peri).







End Masking.



(** A session on the 160 MHz part: of three raised interrupts the second
    has no enabled cause and does not enter the handler; the other two each
    give one whole invocation. *)
Example raised_interrupts_example :
  events_of (slc_raises esp8266
               [(0x20000, 0x3FFE8000); (0x10000, 0x3FFE800C); (0x30000, 0x3FFE8018)])
            running =
  [EvWrite SLCIC 0xFFFFFFFF; EvIntrDisable;
   EvRender 0x40201234 0 0x3FFF0000 64; EvIntrEnable;
   EvWrite SLCIC 0xFFFFFFFF; EvIntrDisable;
   EvRender 0x40201234 0 0x3FFF0200 64; EvIntrEnable].
Proof. vm_compute. reflexivity. Qed.

(** ** C7: the order of the teardown *)

(** C7, as the code contradicts it.  Stop in mid-session disables the
    peripheral clock before it touches the interrupt source: the steps it
    performs are not in the order the claim gives, and the first of them is
    the clock. *)
Lemma stop_disables_clock_before_interrupt :
  exists s,
    exec (i2s_end esp8266) running = Ok s /\
    squash (steps_of (events_of (i2s_end esp8266) running)) = code_stop_order /\
    squash (steps_of (events_of (i2s_end esp8266) running)) <> spec_stop_order /\
    head (steps_of (events_of (i2s_end esp8266) running)) = Some StepClockDisable.
Proof.
  eexists. split; [vm_compute; reflexivity|].
  split; [vm_compute; reflexivity|].
  split; [vm_compute; discriminate|].
  vm_compute. reflexivity.
Qed.

(** C7, amended.  Stop performs its teardown in the order: disable the
    peripheral clock, disable the interrupt source, clear the pending
    interrupt flags, clear the two DMA descriptor-address registers, release
    the buffer pool (when there is one), restore the pins.  Disabling the
    interrupt source precedes every step but the first. *)
Theorem stop_teardown_order hw s :
  i2s_slc_buf_pntr s = 0 \/ i2s_slc_buf_pntr s ∈ heap s ->
  exists s',
    exec (i2s_end hw) s = Ok s' /\
    events_of (i2s_end hw) s = stop_trace hw s /\
    steps_of (events_of (i2s_end hw) s) =
      [StepClockDisable; StepIntrDisable; StepClearFlags;
       StepClearDescriptors; StepClearDescriptors]
      ++ (if i2s_slc_buf_pntr s =? 0 then [] else [StepReleasePool])
      ++ [StepRestorePins; StepRestorePins; StepRestorePins] /\
    (i2s_slc_buf_pntr s <> 0 ->
     squash (steps_of (events_of (i2s_end hw) s)) = code_stop_order).
Proof.
  intros Hp.
  destruct (i2s_end_ok hw s Hp) as (s' & Hrun & _ & _ & _ & _ & _ & _ & _ & _ & _ & Ht).
  exists s'. split; [exact (exec_ok _ _ _ _ Hrun)|].
  rewrite (events_of_ok _ _ _ _ _ Hrun Ht).
  split; [reflexivity|]. unfold stop_trace.
  destruct (i2s_slc_buf_pntr s =? 0) eqn:Hz.
  - split; [reflexivity|]. intros Hne. apply Z.eqb_eq in Hz. contradiction.
  - split; reflexivity.
Qed.

Lemma stop_teardown_order_witness :
  exists s',
    exec (i2s_end esp8266) running = Ok s' /\
    events_of (i2s_end esp8266) running = stop_trace esp8266 running /\
    steps_of (events_of (i2s_end esp8266) running) =
      [StepClockDisable; StepIntrDisable; StepClearFlags;
       StepClearDescriptors; StepClearDescriptors]
      ++ (if i2s_slc_buf_pntr running =? 0 then [] else [StepReleasePool])
      ++ [StepRestorePins; StepRestorePins; StepRestorePins] /\
    (i2s_slc_buf_pntr running <> 0 ->
     squash (steps_of (events_of (i2s_end esp8266) running)) = code_stop_order).
Proof.
  apply (stop_teardown_order esp8266 running).
  right. vm_compute. reflexivity.
Defined.

(** ** C8: descriptors and their buffers *)

(** C8.  After a start whose allocation returned a block at [p], descriptor
    [i] is bound to the buffer at [p + 256 i]: a non-null pointer, different
    for different descriptors; its [blocksize] and [datalen] are the 256
    bytes of one buffer, and its end-of-frame and owner bits are 1. *)
Theorem descriptors_bound_to_buffers hw s0 fn rc rate p :
  arrays_ok s0 -> fn <> 0 -> rate_ok hw rate = true -> block_ok p ->
  exists s1,
    exec (i2s_begin hw fn rc rate p) s0 = Ok s1 /\
    length (i2s_slc_items s1) = Z.to_nat SLC_BUF_CNT /\
    (forall i d, i2s_slc_items s1 !! i = Some d ->
       buf_ptr d = p + Z.of_nat i * (SLC_BUF_LEN * 4) /\
       buf_ptr d <> 0 /\
       blocksize d = SLC_BUF_LEN * 4 /\
       datalen d = SLC_BUF_LEN * 4 /\
       eof d = 1 /\
       owner d = 1) /\
    (forall i j di dj,
       i2s_slc_items s1 !! i = Some di -> i2s_slc_items s1 !! j = Some dj ->
       i <> j -> buf_ptr di <> buf_ptr dj).
Proof.
  intros [_ Hi0] Hfn Hrate [Hp0 Hp1].
  destruct (i2s_begin_ok hw fn rc rate p s0 Hi0 Hfn Hrate) as (s1 & Hrun1 & Hs1).
  destruct Hs1 as [_ _ _ Hitems _ _ _ _ _ _].
  unfold SLC_BUF_LEN, SLC_BUF_CNT in *.
  assert (Hbuf : forall i d, i2s_slc_items s1 !! i = Some d ->
            (i < 4)%nat /\ buf_ptr d = p + Z.of_nat i * (64 * 4) /\
            blocksize d = 64 * 4 /\ datalen d = 64 * 4 /\ eof d = 1 /\ owner d = 1).
  { intros i d Hd. rewrite Hitems in Hd.
    destruct i as [|[|[|[|i]]]]; cbn in Hd; try discriminate;
      injection Hd as <-; (split; [lia|]); (split; [|repeat split]);
      cbn [buf_ptr wired_item]; unfold u32, SLC_BUF_LEN;
      rewrite Z.mod_mod by lia; apply Z.mod_small; lia. }
  exists s1. split; [exact (exec_ok _ _ _ _ Hrun1)|].
  split; [rewrite Hitems; reflexivity|]. split.
  - intros i d Hd. destruct (Hbuf i d Hd) as (Hlt & Hb & Hrest).
    split; [exact Hb|]. split; [lia | exact Hrest].
  - intros i j di dj Hdi Hdj Hne.
    destruct (Hbuf i di Hdi) as (_ & Hbi & _).
    destruct (Hbuf j dj Hdj) as (_ & Hbj & _). lia.
Qed.

Lemma descriptors_bound_to_buffers_witness :
  exists s1,
    exec (i2s_begin esp8266 0x40201234 0 16000 0x3FFF0000) power_on = Ok s1 /\
    length (i2s_slc_items s1) = Z.to_nat SLC_BUF_CNT /\
    (forall i d, i2s_slc_items s1 !! i = Some d ->
       buf_ptr d = 0x3FFF0000 + Z.of_nat i * (SLC_BUF_LEN * 4) /\
       buf_ptr d <> 0 /\
       blocksize d = SLC_BUF_LEN * 4 /\
       datalen d = SLC_BUF_LEN * 4 /\
       eof d = 1 /\
       owner d = 1) /\
    (forall i j di dj,
       i2s_slc_items s1 !! i = Some di -> i2s_slc_items s1 !! j = Some dj ->
       i <> j -> buf_ptr di <> buf_ptr dj).
Proof.
  apply (descriptors_bound_to_buffers esp8266 power_on 0x40201234 0 16000 0x3FFF0000).
  - split; reflexivity.
  - discriminate.
  - reflexivity.
  - split; vm_compute; [reflexivity | discriminate].
Defined.

(** ** C9: the rate the dividers reconstruct *)

(** C9, as the code contradicts it.  For 16000 Hz and a 160 MHz base
    frequency the two quotients are 312 and 89; cut to the six bits of their
    masks they become the dividers 56 and 25, which reconstruct 57142 Hz.
    With a 12 MHz base frequency the dividers are 23 and 16 and reconstruct
    16304 Hz.  Neither is within one unit of 16000. *)
Lemma rate_16000_is_not_reconstructed :
  (i2s_dividers esp8266 16000 power_on = Ok ((56, 25), power_on) /\
   reconstructed_rate esp8266 (56, 25) = 57142 /\
   ~ Z.abs (reconstructed_rate esp8266 (56, 25) - 16000) <= 1) /\
  (i2s_dividers (esp8266_at 12000000) 16000 power_on = Ok ((23, 16), power_on) /\
   reconstructed_rate (esp8266_at 12000000) (23, 16) = 16304 /\
   ~ Z.abs (reconstructed_rate (esp8266_at 12000000) (23, 16) - 16000) <= 1).
Proof.
  split; (split; [vm_compute; reflexivity|]);
    (split; [vm_compute; reflexivity|]); vm_compute; intros H; apply H; reflexivity.
Qed.

(** C9, amended.  When neither quotient is zero or cut by its mask, the
    rate computation returns them as the dividers, and the rate they
    reconstruct is never below the requested rate and exceeds it by less
    than a sixteenth of it. *)
Theorem reconstructed_rate_bounds hw rate s :
  0 <= I2SBASEFREQ hw < 2 ^ 32 -> 0 < rate -> rate * 32 < 2 ^ 32 ->
  0 < I2SBASEFREQ hw / (rate * 32) ->
  clock_div hw rate = I2SBASEFREQ hw / (rate * 32) ->
  bck_div hw rate = I2SBASEFREQ hw / (rate * clock_div hw rate * 2) ->
  i2s_dividers hw rate s = Ok ((clock_div hw rate, bck_div hw rate), s) /\
  rate <= reconstructed_rate hw (clock_div hw rate, bck_div hw rate) /\
  16 * (reconstructed_rate hw (clock_div hw rate, bck_div hw rate) - rate) < rate.
Proof.
  intros HF Hr Hr32 Hq Hcd Hbd.
  set (F := I2SBASEFREQ hw) in *.
  set (cd := clock_div hw rate) in *.
  set (bd := bck_div hw rate) in *.
  assert (Hcd0 : 0 < cd) by lia.
  assert (Hcdle : cd * (rate * 32) <= F).
  { rewrite Hcd, Z.mul_comm. apply Z.mul_div_le. lia. }
  assert (Hdiv : 0 < rate * cd * 2) by nia.
  assert (Hbd16 : 16 <= bd).
  { rewrite Hbd. apply Z.div_le_lower_bound; nia. }
  assert (Hbdle : bd * (rate * cd * 2) <= F).
  { rewrite Hbd, Z.mul_comm. apply Z.mul_div_le. lia. }
  assert (Hbdlt : F < (bd + 1) * (rate * cd * 2)).
  { rewrite Hbd.
    pose proof (Z.mul_succ_div_gt F (rate * cd * 2) Hdiv). nia. }
  split.
  - apply i2s_dividers_ok. unfold rate_ok.
    fold cd. fold F.
    assert (H1 : u32 (rate * 32) = rate * 32) by (apply Z.mod_small; lia).
    assert (H2 : u32 (rate * cd * 2) = rate * cd * 2) by (apply Z.mod_small; nia).
    rewrite H1, H2.
    replace (rate * 32 =? 0) with false by (symmetry; apply Z.eqb_neq; lia).
    replace (rate * cd * 2 =? 0) with false by (symmetry; apply Z.eqb_neq; lia).
    reflexivity.
  - unfold reconstructed_rate. cbn [fst snd]. fold F.
    assert (Hden : 0 < cd * bd * 2) by nia.
    pose proof (Z.mul_div_le F (cd * bd * 2) Hden) as Hlo.
    set (rec := F / (cd * bd * 2)) in *.
    assert (Hge : rate <= rec).
    { apply Z.div_le_lower_bound; [exact Hden | nia]. }
    split; [exact Hge|].
    assert (Hrb : rec * bd < (bd + 1) * rate) by nia.
    nia.
Qed.

Lemma reconstructed_rate_bounds_witness :
  i2s_dividers (esp8266_at 12000000) 16000 power_on =
    Ok ((clock_div (esp8266_at 12000000) 16000,
         bck_div (esp8266_at 12000000) 16000), power_on) /\
  16000 <= reconstructed_rate (esp8266_at 12000000)
             (clock_div (esp8266_at 12000000) 16000,
              bck_div (esp8266_at 12000000) 16000) /\
  16 * (reconstructed_rate (esp8266_at 12000000)
          (clock_div (esp8266_at 12000000) 16000,
           bck_div (esp8266_at 12000000) 16000) - 16000) < 16000.
Proof.
  apply (reconstructed_rate_bounds (esp8266_at 12000000) 16000 power_on).
  - cbn. lia.
  - lia.
  - lia.
  - vm_compute. reflexivity.
  - vm_compute. reflexivity.
  - vm_compute. reflexivity.
Defined.

(** ** C10: the unguarded division *)

(** C10.  The second division of the rate computation has the divisor
    [rate * i2s_clock_div * 2] and nothing tests it: the computation returns
    only if the masked clock divider is nonzero; whenever the masked clock
    divider is zero (and the first division went through) it divides by
    zero; and there is such a rate, at which start as a whole traps. *)
Theorem bck_divider_division_unguarded hw :
  0 <= I2SBASEFREQ hw < 2 ^ 31 ->
  (forall rate s d s',
     i2s_dividers hw rate s = Ok (d, s') -> clock_div hw rate <> 0) /\
  (forall rate s,
     u32 (rate * 32) <> 0 -> clock_div hw rate = 0 ->
     i2s_dividers hw rate s = Fault DivideByZero) /\
  (exists rate,
     0 < rate < 2 ^ 32 /\ u32 (rate * 32) <> 0 /\ clock_div hw rate = 0 /\
     forall s fn rc p, arrays_ok s -> fn <> 0 ->
       exec (i2s_begin hw fn rc rate p) s = Fault DivideByZero).
Proof.
  intros HF.
  assert (Hzero : forall rate, clock_div hw rate = 0 -> rate_ok hw rate = false).
  { intros rate Hc. unfold rate_ok. rewrite Hc.
    replace (rate * 0 * 2) with 0 by ring.
    change (u32 0 =? 0) with true. apply andb_false_r. }
  split; [|split].
  - intros rate s d s' Hrun Hc.
    rewrite (i2s_dividers_fault hw rate s (Hzero rate Hc)) in Hrun. discriminate.
  - intros rate s _ Hc. apply i2s_dividers_fault, Hzero, Hc.
  - exists (2 ^ 26).
    assert (Hc : clock_div hw (2 ^ 26) = 0).
    { unfold clock_div. change (u32 (2 ^ 26 * 32)) with (2 ^ 31).
      unfold u32. rewrite (Z.mod_small (I2SBASEFREQ hw)) by lia.
      rewrite Z.div_small by lia. reflexivity. }
    split; [lia|]. split; [vm_compute; discriminate|]. split; [exact Hc|].
    intros s fn rc p [_ Hi] Hfn.
    apply exec_fault, i2s_begin_fault; [exact Hi | exact Hfn | exact (Hzero _ Hc)].
Qed.

Lemma bck_divider_division_unguarded_witness :
  (forall rate s d s',
     i2s_dividers esp8266 rate s = Ok (d, s') -> clock_div esp8266 rate <> 0) /\
  (forall rate s,
     u32 (rate * 32) <> 0 -> clock_div esp8266 rate = 0 ->
     i2s_dividers esp8266 rate s = Fault DivideByZero) /\
  (exists rate,
     0 < rate < 2 ^ 32 /\ u32 (rate * 32) <> 0 /\ clock_div esp8266 rate = 0 /\
     forall s fn rc p, arrays_ok s -> fn <> 0 ->
       exec (i2s_begin esp8266 fn rc rate p) s = Fault DivideByZero).
Proof.
  apply (bck_divider_division_unguarded esp8266).
  cbn. lia.
Defined.

(** A rate in the audio range at which the masked clock divider is zero on
    the 160 MHz part: the quotient is 128, a multiple of 64. *)
Example rate_39062_traps :
  clock_div esp8266 39062 = 0 /\
  exec (i2s_begin esp8266 0x40201234 0 39062 0x3FFF0000) power_on = Fault DivideByZero.
Proof. split; vm_compute; reflexivity. Qed.

(** The guard filling up and then evicting, on the running state: the
    completions of descriptors 0, 1, 2 fill it, that of descriptor 3 drops
    the entry of descriptor 0. *)
Example guard_fills_then_evicts :
  (i2s_slc_queue <$> exec_option
     (slc_interrupts esp8266
        [(0x20000, 0x3FFE8000); (0x20000, 0x3FFE800C); (0x20000, 0x3FFE8018)])
     running) = Some [0x3FFF0000; 0x3FFF0100; 0x3FFF0200] /\
  (i2s_slc_queue <$> exec_option
     (slc_interrupts esp8266
        [(0x20000, 0x3FFE8000); (0x20000, 0x3FFE800C); (0x20000, 0x3FFE8018);
         (0x20000, 0x3FFE8024)])
     running) = Some [0x3FFF0100; 0x3FFF0200; 0x3FFF0300].
Proof. split; vm_compute; reflexivity. Qed.

(** * Further properties of the driver *)

(** ** The queue *)

Lemma last_n_app_idemp {A} n (l k : list A) :
  last_n n (last_n n l ++ k) = last_n n (l ++ k).
Proof.
  unfold last_n.
  destruct (decide (length l <= n)%nat) as [Hle|Hgt].
  - replace (length l - n)%nat with 0%nat by lia. reflexivity.
  - rewrite !length_app, length_drop.
    replace (length l - (length l - n) + length k - n)%nat with (length k) by lia.
    replace (length l + length k - n)%nat with ((length l - n) + length k)%nat by lia.
    rewrite <- drop_drop. f_equal.
    rewrite drop_app_le by lia. reflexivity.
Qed.

Lemma omap_cons_some {A B} (f : A -> option B) x y l :
  f x = Some y -> omap f (x :: l) = y :: omap f l.
Proof.
  intros H.
  change (omap f (x :: l))
    with (match f x with Some z => z :: omap f l | None => omap f l end).
  rewrite H. reflexivity.
Qed.

(** A pop of a guard that is not empty. *)
Lemma pop_run s :
  arrays_ok s -> 1 <= i2s_slc_queue_len s <= SLC_BUF_CNT - 1 ->
  exists item s',
    i2s_slc_queue_next_item s = Ok (item, s') /\
    guard_contents s = item :: guard_contents s' /\
    i2s_slc_queue_len s' = i2s_slc_queue_len s - 1 /\
    length (i2s_slc_queue s') = length (i2s_slc_queue s) /\
    i2s_slc_items s' = i2s_slc_items s /\
    i2s_slc_buf_pntr s' = i2s_slc_buf_pntr s /\
    heap s' = heap s /\
    trace s' = trace s.
Proof.
  destruct_state s. intros [Hq _] Hl. proj_all.
  change (Z.to_nat (SLC_BUF_CNT - 1)) with 3%nat in Hq.
  destruct q as [|a [|b [|c [|]]]]; try discriminate.
  assert (Hc : len = 1 \/ len = 2 \/ len = 3) by (unfold SLC_BUF_CNT in Hl; lia).
  destruct Hc as [-> | [-> | ->]];
    (do 2 eexists; split; [vm_compute; reflexivity|]); repeat split.
Qed.


(** X1.  Popping a guard that holds one to three entries returns the
    oldest entry, shortens the guard by one and leaves the remaining entries
    in their order; nothing else of the driver changes. *)
Theorem pop_returns_oldest s :
  arrays_ok s -> 1 <= i2s_slc_queue_len s <= SLC_BUF_CNT - 1 ->
  exists item s',
    i2s_slc_queue_next_item s = Ok (item, s') /\
    guard_contents s = item :: guard_contents s' /\
    i2s_slc_queue_len s' = i2s_slc_queue_len s - 1 /\
    length (i2s_slc_queue s') = length (i2s_slc_queue s) /\
    i2s_slc_items s' = i2s_slc_items s /\
    i2s_slc_buf_pntr s' = i2s_slc_buf_pntr s /\
    heap s' = heap s /\
    trace s' = trace s.
Proof.
  intros Ha Hl. exact (pop_run s Ha Hl).
Qed.

Lemma pop_returns_oldest_witness :
  exists item s',
    i2s_slc_queue_next_item
      (with_queue_len 2 (with_queue [11; 22; 33] power_on)) = Ok (item, s') /\
    guard_contents (with_queue_len 2 (with_queue [11; 22; 33] power_on)) =
      item :: guard_contents s' /\
    i2s_slc_queue_len s' =
      i2s_slc_queue_len (with_queue_len 2 (with_queue [11; 22; 33] power_on)) - 1 /\
    length (i2s_slc_queue s') =
      length (i2s_slc_queue (with_queue_len 2 (with_queue [11; 22; 33] power_on))) /\
    i2s_slc_items s' =
      i2s_slc_items (with_queue_len 2 (with_queue [11; 22; 33] power_on)) /\
    i2s_slc_buf_pntr s' =
      i2s_slc_buf_pntr (with_queue_len 2 (with_queue [11; 22; 33] power_on)) /\
    heap s' = heap (with_queue_len 2 (with_queue [11; 22; 33] power_on)) /\
    trace s' = trace (with_queue_len 2 (with_queue [11; 22; 33] power_on)).
Proof.
  apply (pop_returns_oldest (with_queue_len 2 (with_queue [11; 22; 33] power_on))).
  - split; reflexivity.
  - vm_compute. split; discriminate.
Defined.

(** X2.  Popping an empty guard is not caught: the length wraps from 0 to
    255 and the shifting loop reads [i2s_slc_queue[3]], one slot past the end
    of the array. *)
Theorem pop_on_empty_guard_overruns s :
  arrays_ok s -> i2s_slc_queue_len s = 0 ->
  i2s_slc_queue_next_item s = Fault (OutOfBounds 3).
Proof.
  destruct_state s. intros [Hq _] Hl. proj_all. subst len.
  change (Z.to_nat (SLC_BUF_CNT - 1)) with 3%nat in Hq.
  destruct q as [|a [|b [|c [|]]]]; try discriminate.
  vm_compute. reflexivity.
Qed.

Lemma pop_on_empty_guard_overruns_witness :
  i2s_slc_queue_next_item power_on = Fault (OutOfBounds 3).
Proof.
  apply (pop_on_empty_guard_overruns power_on).
  - split; reflexivity.
  - reflexivity.
Defined.

(** ** What a run of completion events does *)

Section CompletionEffects.

Context (hw : peri).

Lemma push_contents q len v :
  length q = Z.to_nat (SLC_BUF_CNT - 1) -> 0 <= len <= SLC_BUF_CNT - 1 ->
  take (Z.to_nat (Z.min (len + 1) (SLC_BUF_CNT - 1))) (guard_after_push q len v) =
  last_n 3 (take (Z.to_nat len) q ++ [v]).
Proof.
  intros Hq Hl. change (Z.to_nat (SLC_BUF_CNT - 1)) with 3%nat in Hq.
  destruct q as [|a [|b [|c [|]]]]; try discriminate.
  assert (Hc : len = 0 \/ len = 1 \/ len = 2 \/ len = 3)
    by (unfold SLC_BUF_CNT in Hl; lia).
  destruct Hc as [-> | [-> | [-> | ->]]]; reflexivity.
Qed.

(** Any run of completion events, from any state with a sound guard. *)
Lemma completions_effect es : forall s,
  arrays_ok s -> guard_ok s -> i2s_render s <> 0 ->
  forallb (is_completion hw) es = true ->
  exists s' delta,
    slc_interrupts hw es s = Ok (tt, s') /\
    arrays_ok s' /\ guard_ok s' /\
    i2s_slc_items s' = i2s_slc_items s /\
    i2s_slc_buf_pntr s' = i2s_slc_buf_pntr s /\
    i2s_render s' = i2s_render s /\
    i2s_render_refcon s' = i2s_render_refcon s /\
    intr_attached s' = intr_attached s /\
    intr_enabled s' = (match es with [] => intr_enabled s | _ => true end) /\
    heap s' = heap s /\
    guard_contents s' =
      last_n 3 (guard_contents s ++ omap (finished_buf hw (i2s_slc_items s)) es) /\
    trace s' = trace s ++ delta /\
    filter is_render delta =
      map (fun b => EvRender (i2s_render s) (i2s_render_refcon s) b SLC_BUF_LEN)
          (omap (finished_buf hw (i2s_slc_items s)) es) /\
    forallb is_handler_event delta = true.
Proof.
  induction es as [|[status eda] es IH]; intros s Ha Hg Hr Hes.
  - exists s, []. cbn [slc_interrupts omap map]. rewrite !app_nil_r.
    repeat split; try assumption; try apply Ha; try apply Hg.
    unfold last_n, guard_contents. pose proof Hg as Hg'. destruct Ha as [Hq _].
    unfold guard_ok in Hg'. rewrite length_take, Hq.
    change (Z.to_nat (SLC_BUF_CNT - 1)) with 3%nat.
    replace (Z.to_nat (i2s_slc_queue_len s) `min` 3 - 3)%nat with 0%nat
      by (unfold SLC_BUF_CNT in Hg'; lia).
    reflexivity.
  - cbn [forallb] in Hes. apply andb_true_iff in Hes as [He Hes].
    destruct (is_completion_inv hw _ _ _ Ha He) as (Hbit & i & d & Hi & Hd).
    destruct (slc_interrupt_eof hw _ _ _ _ _ Ha Hg Hr Hbit Hi Hd)
      as (s1 & Hrun & Hq1 & Hl1 & Hb1 & Hit1 & Hr1 & Hc1 & Hen1 & Hat1 & Hh1 & Ht1).
    assert (Ha1 : arrays_ok s1).
    { destruct Ha as [Hqa Hia]. split.
      - rewrite Hq1. apply guard_after_push_length; assumption.
      - rewrite Hit1. exact Hia. }
    assert (Hg1 : guard_ok s1).
    { unfold guard_ok in *. rewrite Hl1. unfold SLC_BUF_CNT in *. lia. }
    destruct (IH s1 Ha1 Hg1 ltac:(rewrite Hr1; exact Hr) Hes)
      as (s2 & delta & Hrun2 & Ha2 & Hg2 & Hit2 & Hb2 & Hr2 & Hc2 & Hat2 & Hen2
          & Hh2 & Hgc2 & Ht2 & Hf2 & Hev2).
    assert (Hfb : finished_buf hw (i2s_slc_items s) (status, eda) = Some (buf_ptr d)).
    { unfold finished_buf. cbn [snd]. rewrite Hi, Hd. reflexivity. }
    assert (Hgc1 : guard_contents s1 = last_n 3 (guard_contents s ++ [buf_ptr d])).
    { unfold guard_contents. rewrite Hq1, Hl1.
      apply push_contents; [apply Ha | exact Hg]. }
    eexists s2, _. cbn [slc_interrupts]. unfold mbind, M_bind, bind.
    rewrite Hrun. split; [exact Hrun2|].
    split; [exact Ha2|]. split; [exact Hg2|].
    split; [congruence|]. split; [congruence|]. split; [congruence|].
    split; [congruence|]. split; [congruence|]. split.
    { rewrite Hen2. destruct es; [exact Hen1 | reflexivity]. }
    split; [congruence|]. split.
    { rewrite Hgc2, Hgc1, Hit1, (omap_cons_some _ _ _ _ Hfb).
      rewrite last_n_app_idemp, <- app_assoc. reflexivity. }
    split.
    { rewrite Ht2, Ht1, <- app_assoc. reflexivity. }
    split.
    + rewrite filter_app, (omap_cons_some _ _ _ _ Hfb). cbn [map].
      rewrite Hf2, Hit1, Hr1, Hc1. reflexivity.
    + rewrite forallb_app, Hev2. reflexivity.
Qed.

Lemma completion_of_ok x :
  SLCIRXEOF hw <> 0 -> 0 <= x < SLC_BUF_CNT ->
  is_completion hw (completion_of hw x) = true.
Proof.
  intros Hbit Hx. unfold is_completion, completion_of. cbn [fst snd].
  rewrite Z.land_diag, item_index_addr by exact Hx.
  apply Z.eqb_neq in Hbit. rewrite Hbit. reflexivity.
Qed.

Lemma finished_buf_wired p x :
  block_ok p -> 0 <= x < SLC_BUF_CNT ->
  finished_buf hw (map (wired_item hw p) [0; 1; 2; 3]) (completion_of hw x) =
  Some (p + x * (SLC_BUF_LEN * 4)).
Proof.
  intros [Hp0 Hp1] Hx. unfold finished_buf, completion_of. cbn [snd].
  rewrite item_index_addr by exact Hx.
  assert (Hc : x = 0 \/ x = 1 \/ x = 2 \/ x = 3) by (unfold SLC_BUF_CNT in Hx; lia).
  destruct Hc as [-> | [-> | [-> | ->]]];
    match goal with
    | |- context [Z.to_nat ?n] =>
        let m := eval vm_compute in (Z.to_nat n) in change (Z.to_nat n) with m
    end;
    cbn [map lookup list_lookup fmap option_fmap option_map buf_ptr wired_item];
    f_equal; unfold u32, SLC_BUF_LEN, SLC_BUF_CNT in *;
    rewrite Z.mod_mod by lia; apply Z.mod_small; lia.
Qed.

Lemma completions_of_ok xs :
  SLCIRXEOF hw <> 0 -> Forall (fun x => 0 <= x < SLC_BUF_CNT) xs ->
  forallb (is_completion hw) (map (completion_of hw) xs) = true.
Proof.
  intros Hbit Hxs. induction Hxs as [|x xs Hx _ IH]; [reflexivity|].
  cbn [map forallb]. rewrite completion_of_ok, IH by assumption. reflexivity.
Qed.

Lemma finished_bufs_wired p xs :
  block_ok p -> Forall (fun x => 0 <= x < SLC_BUF_CNT) xs ->
  omap (finished_buf hw (map (wired_item hw p) [0; 1; 2; 3]))
       (map (completion_of hw) xs) =
  map (fun x => p + x * (SLC_BUF_LEN * 4)) xs.
Proof.
  intros Hp Hxs. induction Hxs as [|x xs Hx _ IH]; [reflexivity|].
  cbn [map].
  rewrite (omap_cons_some _ _ _ _ (finished_buf_wired p x Hp Hx)), IH.
  reflexivity.
Qed.

End CompletionEffects.

(** A session: a start whose allocation returned the block [p], then the
    completion interrupts of the descriptors [xs]. *)
Lemma session_run hw s0 fn rc rate p xs :
  arrays_ok s0 -> fn <> 0 -> rate_ok hw rate = true -> block_ok p ->
  SLCIRXEOF hw <> 0 -> Forall (fun x => 0 <= x < SLC_BUF_CNT) xs ->
  exists s1 s2 d1 d2,
    i2s_begin hw fn rc rate p s0 = Ok (tt, s1) /\
    slc_interrupts hw (map (completion_of hw) xs) s1 = Ok (tt, s2) /\
    trace s1 = trace s0 ++ d1 /\
    filter is_render d1 =
      map (fun x => EvRender fn rc (p + x * (SLC_BUF_LEN * 4)) SLC_BUF_LEN)
          [0; 1; 2; 3] /\
    trace s2 = trace s1 ++ d2 /\
    filter is_render d2 =
      map (fun x => EvRender fn rc (p + x * (SLC_BUF_LEN * 4)) SLC_BUF_LEN) xs /\
    guard_contents s2 = last_n 3 (map (fun x => p + x * (SLC_BUF_LEN * 4)) xs).
Proof.
  intros Ha0 Hfn Hrate Hp Hbit Hxs. pose proof Ha0 as [Hq0 Hi0].
  destruct (i2s_begin_ok hw fn rc rate p s0 Hi0 Hfn Hrate) as (s1 & Hrun1 & Hs1).
  destruct Hs1 as [Hq1 Hl1 _ Hit1 Hr1 Hc1 _ _ _ (d1 & Ht1 & Hf1 & _)].
  assert (Ha1 : arrays_ok s1).
  { split; [rewrite Hq1; exact Hq0 | rewrite Hit1; reflexivity]. }
  assert (Hg1 : guard_ok s1) by (unfold guard_ok, SLC_BUF_CNT; rewrite Hl1; lia).
  assert (Hn1 : i2s_render s1 <> 0) by (rewrite Hr1; exact Hfn).
  destruct (completions_effect hw _ s1 Ha1 Hg1 Hn1 (completions_of_ok hw xs Hbit Hxs))
    as (s2 & d2 & Hrun2 & _ & _ & _ & _ & _ & _ & _ & _ & _ & Hgc2 & Ht2 & Hf2 & _).
  rewrite Hit1, (finished_bufs_wired hw p xs Hp Hxs) in Hgc2, Hf2.
  exists s1, s2, d1, d2.
  split; [exact Hrun1|]. split; [exact Hrun2|]. split; [exact Ht1|]. split.
  { rewrite Hf1. destruct Hp as [Hp0 Hp1]. unfold SLC_BUF_LEN, SLC_BUF_CNT in *.
    cbn [map]. repeat f_equal; unfold u32; apply Z.mod_small; lia. }
  split; [exact Ht2|]. split.
  { rewrite Hf2, Hr1, Hc1, map_map. reflexivity. }
  rewrite Hgc2. unfold guard_contents. rewrite Hl1. reflexivity.
Qed.

(** X3.  The Underrun Guard is a record of the most recent completions:
    after a start on the pool [p] and the completions of the descriptors
    [xs], it holds the buffers of the last three of them (of all of them, if
    fewer), oldest first. *)
Theorem guard_holds_last_three_completions hw s0 fn rc rate p xs :
  arrays_ok s0 -> fn <> 0 -> rate_ok hw rate = true -> block_ok p ->
  SLCIRXEOF hw <> 0 -> Forall (fun x => 0 <= x < SLC_BUF_CNT) xs ->
  exists s1 s2,
    exec (i2s_begin hw fn rc rate p) s0 = Ok s1 /\
    exec (slc_interrupts hw (map (completion_of hw) xs)) s1 = Ok s2 /\
    guard_contents s2 = last_n 3 (map (fun x => p + x * (SLC_BUF_LEN * 4)) xs).
Proof.
  intros Ha0 Hfn Hrate Hp Hbit Hxs.
  destruct (session_run hw s0 fn rc rate p xs Ha0 Hfn Hrate Hp Hbit Hxs)
    as (s1 & s2 & d1 & d2 & Hrun1 & Hrun2 & _ & _ & _ & _ & Hgc).
  exists s1, s2.
  split; [exact (exec_ok _ _ _ _ Hrun1)|].
  split; [exact (exec_ok _ _ _ _ Hrun2) | exact Hgc].
Qed.

Lemma guard_holds_last_three_completions_witness :
  exists s1 s2,
    exec (i2s_begin esp8266 0x40201234 0 16000 0x3FFF0000) power_on = Ok s1 /\
    exec (slc_interrupts esp8266 (map (completion_of esp8266) [0; 1; 2; 3; 1])) s1
      = Ok s2 /\
    guard_contents s2 =
      last_n 3 (map (fun x => 0x3FFF0000 + x * (SLC_BUF_LEN * 4)) [0; 1; 2; 3; 1]).
Proof.
  apply (guard_holds_last_three_completions
           esp8266 power_on 0x40201234 0 16000 0x3FFF0000 [0; 1; 2; 3; 1]).
  - split; reflexivity.
  - discriminate.
  - reflexivity.
  - split; vm_compute; [reflexivity | discriminate].
  - discriminate.
  - repeat constructor; discriminate.
Defined.

(** X4.  Completion events never touch the ring or the pool: after a start
    and any run of them the descriptors, the pool pointer, the set of
    allocated blocks and the attached handler are as start left them, the
    interrupt source is enabled, and the handler has done nothing but
    acknowledge flags, mask and unmask its source and call the render
    callback (no allocation, no release, no pin or clock call). *)
Theorem completions_leave_ring_and_pool hw s0 fn rc rate p es :
  arrays_ok s0 -> fn <> 0 -> rate_ok hw rate = true ->
  forallb (is_completion hw) es = true ->
  exists s1 s2,
    exec (i2s_begin hw fn rc rate p) s0 = Ok s1 /\
    exec (slc_interrupts hw es) s1 = Ok s2 /\
    i2s_slc_items s2 = i2s_slc_items s1 /\
    i2s_slc_buf_pntr s2 = i2s_slc_buf_pntr s1 /\
    heap s2 = heap s1 /\
    i2s_render s2 = fn /\
    i2s_render_refcon s2 = rc /\
    intr_attached s2 = true /\
    intr_enabled s2 = true /\
    forallb is_handler_event (events_of (slc_interrupts hw es) s1) = true.
Proof.
  intros Ha0 Hfn Hrate Hes. pose proof Ha0 as [Hq0 Hi0].
  destruct (i2s_begin_ok hw fn rc rate p s0 Hi0 Hfn Hrate) as (s1 & Hrun1 & Hs1).
  destruct Hs1 as [Hq1 Hl1 _ Hit1 Hr1 Hc1 Hen1 Hat1 _ _].
  assert (Ha1 : arrays_ok s1).
  { split; [rewrite Hq1; exact Hq0 | rewrite Hit1; reflexivity]. }
  assert (Hg1 : guard_ok s1) by (unfold guard_ok, SLC_BUF_CNT; rewrite Hl1; lia).
  assert (Hn1 : i2s_render s1 <> 0) by (rewrite Hr1; exact Hfn).
  destruct (completions_effect hw es s1 Ha1 Hg1 Hn1 Hes)
    as (s2 & d2 & Hrun2 & _ & _ & Hit2 & Hb2 & Hr2 & Hc2 & Hat2 & Hen2 & Hh2
        & _ & Ht2 & _ & Hev2).
  exists s1, s2.
  split; [exact (exec_ok _ _ _ _ Hrun1)|].
  split; [exact (exec_ok _ _ _ _ Hrun2)|].
  split; [exact Hit2|]. split; [exact Hb2|]. split; [exact Hh2|].
  split; [congruence|]. split; [congruence|]. split; [congruence|]. split.
  - rewrite Hen2. destruct es; [exact Hen1 | reflexivity].
  - rewrite (events_of_ok _ _ _ _ _ Hrun2 Ht2). exact Hev2.
Qed.

Lemma completions_leave_ring_and_pool_witness :
  exists s1 s2,
    exec (i2s_begin esp8266 0x40201234 0 16000 0x3FFF0000) power_on = Ok s1 /\
    exec (slc_interrupts esp8266
            [(0x20000, 0x3FFE8000); (0x20000, 0x3FFE8024)]) s1 = Ok s2 /\
    i2s_slc_items s2 = i2s_slc_items s1 /\
    i2s_slc_buf_pntr s2 = i2s_slc_buf_pntr s1 /\
    heap s2 = heap s1 /\
    i2s_render s2 = 0x40201234 /\
    i2s_render_refcon s2 = 0 /\
    intr_attached s2 = true /\
    intr_enabled s2 = true /\
    forallb is_handler_event
      (events_of (slc_interrupts esp8266
                    [(0x20000, 0x3FFE8000); (0x20000, 0x3FFE8024)]) s1) = true.
Proof.
  apply (completions_leave_ring_and_pool
           esp8266 power_on 0x40201234 0 16000 0x3FFF0000
           [(0x20000, 0x3FFE8000); (0x20000, 0x3FFE8024)]).
  - split; reflexivity.
  - discriminate.
  - reflexivity.
  - reflexivity.
Defined.

(** X5.  The render callback is only ever handed buffers of the pool: over
    a whole session its calls are, in order, one on each of the four buffers
    during start and then one per completion on the buffer of the finished
    descriptor, always with the callback and context given to start and the
    length [SLC_BUF_LEN]. *)
Theorem render_calls_of_a_session hw s0 fn rc rate p xs :
  arrays_ok s0 -> fn <> 0 -> rate_ok hw rate = true -> block_ok p ->
  SLCIRXEOF hw <> 0 -> Forall (fun x => 0 <= x < SLC_BUF_CNT) xs ->
  exists s1 s2,
    exec (i2s_begin hw fn rc rate p) s0 = Ok s1 /\
    exec (slc_interrupts hw (map (completion_of hw) xs)) s1 = Ok s2 /\
    filter is_render
      (events_of (i2s_begin hw fn rc rate p) s0 ++
       events_of (slc_interrupts hw (map (completion_of hw) xs)) s1) =
    map (fun x => EvRender fn rc (p + x * (SLC_BUF_LEN * 4)) SLC_BUF_LEN)
        ([0; 1; 2; 3] ++ xs).
Proof.
  intros Ha0 Hfn Hrate Hp Hbit Hxs.
  destruct (session_run hw s0 fn rc rate p xs Ha0 Hfn Hrate Hp Hbit Hxs)
    as (s1 & s2 & d1 & d2 & Hrun1 & Hrun2 & Ht1 & Hf1 & Ht2 & Hf2 & _).
  exists s1, s2.
  split; [exact (exec_ok _ _ _ _ Hrun1)|].
  split; [exact (exec_ok _ _ _ _ Hrun2)|].
  rewrite (events_of_ok _ _ _ _ _ Hrun1 Ht1), (events_of_ok _ _ _ _ _ Hrun2 Ht2).
  rewrite filter_app, map_app, Hf1, Hf2. reflexivity.
Qed.

Lemma render_calls_of_a_session_witness :
  exists s1 s2,
    exec (i2s_begin esp8266 0x40201234 0 16000 0x3FFF0000) power_on = Ok s1 /\
    exec (slc_interrupts esp8266 (map (completion_of esp8266) [0; 1; 2])) s1 = Ok s2 /\
    filter is_render
      (events_of (i2s_begin esp8266 0x40201234 0 16000 0x3FFF0000) power_on ++
       events_of (slc_interrupts esp8266 (map (completion_of esp8266) [0; 1; 2])) s1) =
    map (fun x => EvRender 0x40201234 0 (0x3FFF0000 + x * (SLC_BUF_LEN * 4)) SLC_BUF_LEN)
        ([0; 1; 2; 3] ++ [0; 1; 2]).
Proof.
  apply (render_calls_of_a_session
           esp8266 power_on 0x40201234 0 16000 0x3FFF0000 [0; 1; 2]).
  - split; reflexivity.
  - discriminate.
  - reflexivity.
  - split; vm_compute; [reflexivity | discriminate].
  - discriminate.
  - repeat constructor; discriminate.
Defined.

(** ** Start and stop, event by event and register by register *)

Section StartStop.

Context (hw : peri).

(** Start, once more, for what [started] does not record: the order of
    its events and the SLC registers it leaves. *)
Lemma i2s_begin_delta fn rc rate p s :
  length (i2s_slc_items s) = Z.to_nat SLC_BUF_CNT -> fn <> 0 ->
  rate_ok hw rate = true ->
  exists s' delta,
    i2s_begin hw fn rc rate p s = Ok (tt, s') /\
    trace s' = trace s ++ delta /\
    map erase_value delta =
      [EvMalloc (SLC_BUF_LEN * 4 * SLC_BUF_CNT) p;
       EvRender fn rc (u32 (p + 0 * SLC_BUF_LEN * 4)) SLC_BUF_LEN;
       EvRender fn rc (u32 (p + 1 * SLC_BUF_LEN * 4)) SLC_BUF_LEN;
       EvRender fn rc (u32 (p + 2 * SLC_BUF_LEN * 4)) SLC_BUF_LEN;
       EvRender fn rc (u32 (p + 3 * SLC_BUF_LEN * 4)) SLC_BUF_LEN;
       EvIntrDisable;
       EvWrite SLCC0 0; EvWrite SLCC0 0; EvWrite SLCIC 0;
       EvWrite SLCC0 0; EvWrite SLCC0 0; EvWrite SLCRXDC 0; EvWrite SLCRXDC 0;
       EvWrite SLCTXL 0; EvWrite SLCTXL 0; EvWrite SLCRXL 0; EvWrite SLCRXL 0;
       EvIntrAttach; EvWrite SLCIE 0; EvIntrEnable;
       EvWrite SLCTXL 0; EvWrite SLCRXL 0;
       EvPinMode 2 (FUNCTION_1 hw); EvPinMode 3 (FUNCTION_1 hw);
       EvPinMode 15 (FUNCTION_1 hw);
       EvAudioClock 1; EvWrite I2SIC 0; EvWrite I2SIE 0;
       EvWrite I2SC 0; EvWrite I2SC 0; EvWrite I2SC 0;
       EvWrite I2SFC 0; EvWrite I2SFC 0; EvWrite I2SCC 0;
       EvWrite I2SC 0; EvWrite I2SC 0; EvWrite I2SC 0] /\
    filter is_malloc delta = [EvMalloc (SLC_BUF_LEN * 4 * SLC_BUF_CNT) p] /\
    regs s' SLCIE = u32 (SLCIRXEOF hw) /\
    regs s' SLCRXL =
      u32 (Z.lor
             (u32 (Z.lor
                     (u32 (Z.land (regs s SLCRXL)
                             (not32 (Z.shiftl (SLCRXLAM hw) (SLCRXLA hw)))))
                     (u32 (Z.shiftl (item_addr hw 0) (SLCRXLA hw)))))
             (SLCRXLS hw)) /\
    regs s' SLCTXL =
      u32 (Z.lor
             (u32 (Z.lor
                     (u32 (Z.land (regs s SLCTXL)
                             (not32 (Z.shiftl (SLCTXLAM hw) (SLCTXLA hw)))))
                     (u32 (Z.shiftl (item_addr hw 1) (SLCTXLA hw)))))
             (SLCTXLS hw)).
Proof.
  destruct_state s. intros Hi Hr Hrate.
  change (Z.to_nat SLC_BUF_CNT) with 4%nat in Hi.
  destruct items as [|d0 [|d1 [|d2 [|d3 [|]]]]]; try discriminate.
  unfold i2s_begin, i2s_slc_begin, malloc, i2s_reset. mred.
  change (Z.to_nat SLC_BUF_CNT) with 4%nat. cbn [for_]. mred.
  do 4 (rewrite slc_begin_body_ok by (mred; first [simpl; lia | assumption]); mred).
  rewrite i2s_dividers_ok by assumption. mred.
  do 2 eexists. split; [reflexivity|]. mred.
  split; [flat_trace; reflexivity|]. repeat split.
Qed.

(** Stop, once more, for the SLC registers it leaves. *)
Lemma i2s_end_regs s :
  i2s_slc_buf_pntr s = 0 \/ i2s_slc_buf_pntr s ∈ heap s ->
  exists s',
    i2s_end hw s = Ok (tt, s') /\
    regs s' SLCIE = 0 /\
    regs s' SLCRXL =
      u32 (Z.land (regs s SLCRXL) (not32 (Z.shiftl (SLCRXLAM hw) (SLCRXLA hw)))) /\
    regs s' SLCTXL =
      u32 (Z.land (regs s SLCTXL) (not32 (Z.shiftl (SLCTXLAM hw) (SLCTXLA hw)))).
Proof.
  destruct_state s. intros Hp.
  unfold i2s_end, i2s_slc_end, i2s_reset, free. mred.
  destruct (bp =? 0) eqn:Hz; mred.
  - eexists. split; [reflexivity|]. mred. repeat split.
  - destruct (decide (bp ∈ hp)) as [Hin|Hout].
    + mred. eexists. split; [reflexivity|]. mred. repeat split.
    + apply Z.eqb_neq in Hz. destruct Hp; contradiction.
Qed.

End StartStop.

(** Bits of the 32-bit operations. *)
Lemma u32_testbit x i :
  0 <= i -> Z.testbit (u32 x) i = (i <? 32) && Z.testbit x i.
Proof.
  intros Hi. unfold u32. destruct (Z.ltb_spec i 32).
  - rewrite Z.mod_pow2_bits_low by lia. reflexivity.
  - rewrite Z.mod_pow2_bits_high by lia. reflexivity.
Qed.

Lemma not32_testbit m i :
  0 <= i -> Z.testbit (not32 m) i = (i <? 32) && negb (Z.testbit m i).
Proof.
  intros Hi. unfold not32. rewrite u32_testbit, Z.lnot_spec by lia. reflexivity.
Qed.

(** [R &= ~m] leaves the field [m] of [R] zero. *)
Lemma field_cleared r m : Z.land (u32 (Z.land r (not32 m))) m = 0.
Proof.
  apply Z.bits_inj'. intros i Hi.
  rewrite Z.land_spec, u32_testbit, Z.land_spec, not32_testbit, Z.bits_0 by lia.
  destruct (i <? 32), (Z.testbit r i), (Z.testbit m i); reflexivity.
Qed.

(** [R &= ~m; R |= a; R |= b], with [b] outside the field [m], leaves the
    field [m] of [R] equal to that of [a]. *)
Lemma field_set r m a b :
  Z.land b m = 0 ->
  Z.land (u32 (Z.lor (u32 (Z.lor (u32 (Z.land r (not32 m))) a)) b)) m =
  Z.land (u32 a) m.
Proof.
  intros Hb. apply Z.bits_inj'. intros i Hi.
  assert (Hbi : Z.testbit b i && Z.testbit m i = false)
    by (rewrite <- Z.land_spec, Hb; apply Z.bits_0).
  rewrite !Z.land_spec, !u32_testbit, Z.lor_spec, u32_testbit, Z.lor_spec,
    u32_testbit, Z.land_spec, not32_testbit by lia.
  destruct (i <? 32), (Z.testbit r i), (Z.testbit m i), (Z.testbit a i),
    (Z.testbit b i); try reflexivity; discriminate Hbi.
Qed.

(** [R |= b] leaves the bits [b] of [R] set. *)
Lemma bits_set v b : Z.land (u32 (Z.lor v b)) b = u32 b.
Proof.
  apply Z.bits_inj'. intros i Hi.
  rewrite Z.land_spec, !u32_testbit, Z.lor_spec by lia.
  destruct (i <? 32), (Z.testbit v i), (Z.testbit b i); reflexivity.
Qed.

(** ** Sessions *)

(** Start, then stop, on a fresh block. *)
Lemma start_stop_run hw s0 fn rc rate p :
  arrays_ok s0 -> fn <> 0 -> rate_ok hw rate = true ->
  p <> 0 -> p ∉ heap s0 ->
  exists s1 s2,
    exec (i2s_begin hw fn rc rate p) s0 = Ok s1 /\
    exec (i2s_end hw) s1 = Ok s2 /\
    filter is_malloc (events_of (i2s_begin hw fn rc rate p) s0) =
      [EvMalloc (SLC_BUF_LEN * 4 * SLC_BUF_CNT) p] /\
    filter is_free (events_of (i2s_end hw) s1) = [EvFree p] /\
    heap s2 = heap s0 /\
    intr_enabled s2 = false /\
    intr_attached s2 = true /\
    i2s_slc_buf_pntr s2 = p /\
    i2s_slc_items s2 = map (wired_item hw p) [0; 1; 2; 3].
Proof.
  intros [_ Hi] Hfn Hrate Hp Hfresh.
  destruct (i2s_begin_ok hw fn rc rate p s0 Hi Hfn Hrate) as (s1 & Hrun1 & Hs1).
  destruct (i2s_begin_delta hw fn rc rate p s0 Hi Hfn Hrate)
    as (s1' & d1 & Hrun1' & Ht1 & _ & Hm1 & _).
  rewrite Hrun1 in Hrun1'. injection Hrun1' as <-.
  destruct Hs1 as [_ _ Hbuf Hitems _ _ _ Hat Hheap _].
  apply Z.eqb_neq in Hp. rewrite Hp in Hheap.
  assert (Hin : i2s_slc_buf_pntr s1 ∈ heap s1).
  { rewrite Hbuf, Hheap. apply elem_of_union_l, elem_of_singleton. reflexivity. }
  destruct (i2s_end_ok hw s1 (or_intror Hin))
    as (s2 & Hrun2 & _ & _ & Hbuf2 & Hit2 & _ & _ & Hen2 & Hat2 & Hheap2 & Ht2).
  rewrite Hbuf, Hp in Hheap2.
  exists s1, s2.
  split; [exact (exec_ok _ _ _ _ Hrun1)|].
  split; [exact (exec_ok _ _ _ _ Hrun2)|].
  split; [rewrite (events_of_ok _ _ _ _ _ Hrun1 Ht1); exact Hm1|]. split.
  { rewrite (events_of_ok _ _ _ _ _ Hrun2 Ht2). unfold stop_trace.
    rewrite Hbuf, Hp. reflexivity. }
  split.
  { rewrite Hheap2, Hheap. apply set_eq. intros x.
    rewrite elem_of_difference, elem_of_union, elem_of_singleton.
    split; [tauto|]. intros Hx. split; [tauto|]. intros ->. contradiction. }
  split; [exact Hen2|]. split; [congruence|]. split; congruence.
Qed.


(** X6.  Start followed by stop gives back what start took: the one block
    start allocated is the one block stop frees, and the set of allocated
    blocks is what it was.  The interrupt source is left disabled, but the
    handler stays attached, and the pool pointer and the descriptors still
    refer to the released block. *)
Theorem start_then_stop_releases_the_pool hw s0 fn rc rate p :
  arrays_ok s0 -> fn <> 0 -> rate_ok hw rate = true ->
  p <> 0 -> p ∉ heap s0 ->
  exists s1 s2,
    exec (i2s_begin hw fn rc rate p) s0 = Ok s1 /\
    exec (i2s_end hw) s1 = Ok s2 /\
    filter is_malloc (events_of (i2s_begin hw fn rc rate p) s0) =
      [EvMalloc (SLC_BUF_LEN * 4 * SLC_BUF_CNT) p] /\
    filter is_free (events_of (i2s_end hw) s1) = [EvFree p] /\
    heap s2 = heap s0 /\
    intr_enabled s2 = false /\
    intr_attached s2 = true /\
    i2s_slc_buf_pntr s2 = p /\
    i2s_slc_items s2 = map (wired_item hw p) [0; 1; 2; 3].
Proof.
  intros Ha0 Hfn Hrate Hp Hfresh.
  exact (start_stop_run hw s0 fn rc rate p Ha0 Hfn Hrate Hp Hfresh).
Qed.

Lemma start_then_stop_releases_the_pool_witness :
  exists s1 s2,
    exec (i2s_begin esp8266 0x40201234 0 16000 0x3FFF0000) power_on = Ok s1 /\
    exec (i2s_end esp8266) s1 = Ok s2 /\
    filter is_malloc (events_of (i2s_begin esp8266 0x40201234 0 16000 0x3FFF0000) power_on) =
      [EvMalloc (SLC_BUF_LEN * 4 * SLC_BUF_CNT) 0x3FFF0000] /\
    filter is_free (events_of (i2s_end esp8266) s1) = [EvFree 0x3FFF0000] /\
    heap s2 = heap power_on /\
    intr_enabled s2 = false /\
    intr_attached s2 = true /\
    i2s_slc_buf_pntr s2 = 0x3FFF0000 /\
    i2s_slc_items s2 = map (wired_item esp8266 0x3FFF0000) [0; 1; 2; 3].
Proof.
  apply (start_then_stop_releases_the_pool
           esp8266 power_on 0x40201234 0 16000 0x3FFF0000).
  - split; reflexivity.
  - discriminate.
  - reflexivity.
  - discriminate.
  - apply not_elem_of_empty.
Defined.

(** X7.  A second start without a stop in between loses the first pool:
    the pool pointer is overwritten, the stop that follows frees the second
    block only, and the first block stays allocated with nothing in the
    driver referring to it. *)
Theorem second_start_leaks_first_pool hw s0 fn rc rate p1 p2 :
  arrays_ok s0 -> fn <> 0 -> rate_ok hw rate = true ->
  p1 <> 0 -> p2 <> 0 -> p1 <> p2 ->
  exists s1 s2 s3,
    exec (i2s_begin hw fn rc rate p1) s0 = Ok s1 /\
    exec (i2s_begin hw fn rc rate p2) s1 = Ok s2 /\
    exec (i2s_end hw) s2 = Ok s3 /\
    filter is_free (events_of (i2s_end hw) s2) = [EvFree p2] /\
    p1 ∈ heap s3 /\
    i2s_slc_buf_pntr s3 = p2 /\
    i2s_slc_items s3 = map (wired_item hw p2) [0; 1; 2; 3].
Proof.
  intros [_ Hi] Hfn Hrate Hp1 Hp2 Hne.
  destruct (i2s_begin_ok hw fn rc rate p1 s0 Hi Hfn Hrate) as (s1 & Hrun1 & Hs1).
  destruct Hs1 as [_ _ _ Hitems1 _ _ _ _ Hheap1 _].
  assert (Hi1 : length (i2s_slc_items s1) = Z.to_nat SLC_BUF_CNT)
    by (rewrite Hitems1; reflexivity).
  destruct (i2s_begin_ok hw fn rc rate p2 s1 Hi1 Hfn Hrate) as (s2 & Hrun2 & Hs2).
  destruct Hs2 as [_ _ Hbuf2 Hitems2 _ _ _ _ Hheap2 _].
  apply Z.eqb_neq in Hp1, Hp2. rewrite Hp1 in Hheap1. rewrite Hp2 in Hheap2.
  assert (Hin : i2s_slc_buf_pntr s2 ∈ heap s2).
  { rewrite Hbuf2, Hheap2. apply elem_of_union_l, elem_of_singleton. reflexivity. }
  destruct (i2s_end_ok hw s2 (or_intror Hin))
    as (s3 & Hrun3 & _ & _ & Hbuf3 & Hit3 & _ & _ & _ & _ & Hheap3 & Ht3).
  rewrite Hbuf2, Hp2 in Hheap3.
  exists s1, s2, s3.
  split; [exact (exec_ok _ _ _ _ Hrun1)|].
  split; [exact (exec_ok _ _ _ _ Hrun2)|].
  split; [exact (exec_ok _ _ _ _ Hrun3)|]. split.
  { rewrite (events_of_ok _ _ _ _ _ Hrun3 Ht3). unfold stop_trace.
    rewrite Hbuf2, Hp2. reflexivity. }
  split.
  { rewrite Hheap3, Hheap2, Hheap1.
    apply elem_of_difference. split.
    - apply elem_of_union_r, elem_of_union_l, elem_of_singleton. reflexivity.
    - rewrite elem_of_singleton. exact Hne. }
  split; congruence.
Qed.

Lemma second_start_leaks_first_pool_witness :
  exists s1 s2 s3,
    exec (i2s_begin esp8266 0x40201234 0 16000 0x3FFF0000) power_on = Ok s1 /\
    exec (i2s_begin esp8266 0x40201234 0 16000 0x3FFF1000) s1 = Ok s2 /\
    exec (i2s_end esp8266) s2 = Ok s3 /\
    filter is_free (events_of (i2s_end esp8266) s2) = [EvFree 0x3FFF1000] /\
    0x3FFF0000 ∈ heap s3 /\
    i2s_slc_buf_pntr s3 = 0x3FFF1000 /\
    i2s_slc_items s3 = map (wired_item esp8266 0x3FFF1000) [0; 1; 2; 3].
Proof.
  apply (second_start_leaks_first_pool
           esp8266 power_on 0x40201234 0 16000 0x3FFF0000 0x3FFF1000).
  - split; reflexivity.
  - discriminate.
  - reflexivity.
  - discriminate.
  - discriminate.
  - discriminate.
Defined.

(** X8.  A stopped session can be started again: start, stop, start, stop
    all return, the second start begins with an empty guard and a ring
    wired over the new pool, and after the second stop no block of the
    driver is left allocated. *)
Theorem restart_after_stop hw s0 fn rc rate p1 fn' rc' rate' p2 :
  arrays_ok s0 -> fn <> 0 -> rate_ok hw rate = true ->
  fn' <> 0 -> rate_ok hw rate' = true ->
  p1 <> 0 -> p1 ∉ heap s0 -> p2 <> 0 -> p2 ∉ heap s0 ->
  exists s1 s2 s3 s4,
    exec (i2s_begin hw fn rc rate p1) s0 = Ok s1 /\
    exec (i2s_end hw) s1 = Ok s2 /\
    exec (i2s_begin hw fn' rc' rate' p2) s2 = Ok s3 /\
    exec (i2s_end hw) s3 = Ok s4 /\
    started hw fn' rc' p2 s2 s3 /\
    guard_contents s3 = [] /\
    heap s4 = heap s0.
Proof.
  intros Ha0 Hfn Hrate Hfn' Hrate' Hp1 Hf1 Hp2 Hf2.
  destruct (start_stop_run hw s0 fn rc rate p1 Ha0 Hfn Hrate Hp1 Hf1)
    as (s1 & s2 & Hrun1 & Hrun2 & _ & _ & Hheap2 & _ & _ & _ & Hitems2).
  assert (Hi2 : length (i2s_slc_items s2) = Z.to_nat SLC_BUF_CNT)
    by (rewrite Hitems2; reflexivity).
  destruct (i2s_begin_ok hw fn' rc' rate' p2 s2 Hi2 Hfn' Hrate') as (s3 & Hrun3 & Hs3).
  pose proof Hs3 as [_ Hl3 Hbuf3 _ _ _ _ _ Hheap3 _].
  apply Z.eqb_neq in Hp2. rewrite Hp2 in Hheap3.
  assert (Hin : i2s_slc_buf_pntr s3 ∈ heap s3).
  { rewrite Hbuf3, Hheap3. apply elem_of_union_l, elem_of_singleton. reflexivity. }
  destruct (i2s_end_ok hw s3 (or_intror Hin))
    as (s4 & Hrun4 & _ & _ & _ & _ & _ & _ & _ & _ & Hheap4 & _).
  rewrite Hbuf3, Hp2 in Hheap4.
  exists s1, s2, s3, s4.
  split; [exact Hrun1|]. split; [exact Hrun2|].
  split; [exact (exec_ok _ _ _ _ Hrun3)|].
  split; [exact (exec_ok _ _ _ _ Hrun4)|].
  split; [exact Hs3|]. split.
  { unfold guard_contents. rewrite Hl3. reflexivity. }
  rewrite Hheap4, Hheap3, Hheap2. apply set_eq. intros x.
  rewrite elem_of_difference, elem_of_union, elem_of_singleton.
  split; [tauto|]. intros Hx. split; [tauto|]. intros ->. contradiction.
Qed.

Lemma restart_after_stop_witness :
  exists s1 s2 s3 s4,
    exec (i2s_begin esp8266 0x40201234 0 16000 0x3FFF0000) power_on = Ok s1 /\
    exec (i2s_end esp8266) s1 = Ok s2 /\
    exec (i2s_begin esp8266 0x40205678 1 44100 0x3FFF0000) s2 = Ok s3 /\
    exec (i2s_end esp8266) s3 = Ok s4 /\
    started esp8266 0x40205678 1 0x3FFF0000 s2 s3 /\
    guard_contents s3 = [] /\
    heap s4 = heap power_on.
Proof.
  apply (restart_after_stop esp8266 power_on 0x40201234 0 16000 0x3FFF0000
           0x40205678 1 44100 0x3FFF0000).
  - split; reflexivity.
  - discriminate.
  - reflexivity.
  - discriminate.
  - reflexivity.
  - discriminate.
  - apply not_elem_of_empty.
  - discriminate.
  - apply not_elem_of_empty.
Defined.

(** Stop any number of times on a state without a pool. *)
Lemma repeat_stop_run hw n : forall s,
  i2s_slc_buf_pntr s = 0 ->
  exists s' delta,
    repeat_m n (i2s_end hw) s = Ok (tt, s') /\
    i2s_slc_buf_pntr s' = 0 /\
    heap s' = heap s /\
    trace s' = trace s ++ delta /\
    filter is_free delta = [].
Proof.
  induction n as [|n IH]; intros s Hp.
  - exists s, []. rewrite app_nil_r. repeat split. exact Hp.
  - destruct (i2s_end_ok hw s (or_introl Hp))
      as (s1 & Hrun1 & _ & _ & Hbuf1 & _ & _ & _ & _ & _ & Hheap1 & Ht1).
    rewrite Hp in Hbuf1, Hheap1. cbn in Hheap1.
    destruct (IH s1 Hbuf1) as (s2 & d2 & Hrun2 & Hbuf2 & Hheap2 & Ht2 & Hf2).
    exists s2, (stop_trace hw s ++ d2). cbn [repeat_m]. unfold mbind, M_bind, bind.
    rewrite Hrun1. split; [exact Hrun2|]. split; [exact Hbuf2|].
    split; [congruence|]. split.
    + rewrite Ht2, Ht1, app_assoc. reflexivity.
    + rewrite filter_app, Hf2, app_nil_r. unfold stop_trace. rewrite Hp. reflexivity.
Qed.

(** X9.  Without a pool (the pool pointer is null, as before any start or
    after a failed allocation) stop can be called any number of times: each
    call returns, none calls [free], and the set of allocated blocks does not
    change. *)
Theorem stop_without_pool_repeats hw n s :
  i2s_slc_buf_pntr s = 0 ->
  exists s',
    exec (repeat_m n (i2s_end hw)) s = Ok s' /\
    i2s_slc_buf_pntr s' = 0 /\
    heap s' = heap s /\
    filter is_free (events_of (repeat_m n (i2s_end hw)) s) = [].
Proof.
  intros Hp.
  destruct (repeat_stop_run hw n s Hp) as (s' & delta & Hrun & Hbuf & Hheap & Ht & Hf).
  exists s'. split; [exact (exec_ok _ _ _ _ Hrun)|].
  split; [exact Hbuf|]. split; [exact Hheap|].
  rewrite (events_of_ok _ _ _ _ _ Hrun Ht). exact Hf.
Qed.

Lemma stop_without_pool_repeats_witness :
  exists s',
    exec (repeat_m 3 (i2s_end esp8266)) power_on = Ok s' /\
    i2s_slc_buf_pntr s' = 0 /\
    heap s' = heap power_on /\
    filter is_free (events_of (repeat_m 3 (i2s_end esp8266)) power_on) = [].
Proof.
  apply (stop_without_pool_repeats esp8266 3 power_on).
  reflexivity.
Defined.

(** ** The DMA registers *)

(** X10.  Stop leaves the DMA idle in its registers: every interrupt class
    of the SLC is disabled ([SLCIE] is 0) and the descriptor-address fields
    of both link registers are zero, whatever the registers held before. *)
Theorem stop_clears_dma_registers hw s :
  i2s_slc_buf_pntr s = 0 \/ i2s_slc_buf_pntr s ∈ heap s ->
  exists s',
    exec (i2s_end hw) s = Ok s' /\
    regs s' SLCIE = 0 /\
    Z.land (regs s' SLCRXL) (Z.shiftl (SLCRXLAM hw) (SLCRXLA hw)) = 0 /\
    Z.land (regs s' SLCTXL) (Z.shiftl (SLCTXLAM hw) (SLCTXLA hw)) = 0.
Proof.
  intros Hp.
  destruct (i2s_end_regs hw s Hp) as (s' & Hrun & Hie & Hrx & Htx).
  exists s'. split; [exact (exec_ok _ _ _ _ Hrun)|]. split; [exact Hie|].
  rewrite Hrx, Htx. split; apply field_cleared.
Qed.

Lemma stop_clears_dma_registers_witness :
  exists s',
    exec (i2s_end esp8266) running = Ok s' /\
    regs s' SLCIE = 0 /\
    Z.land (regs s' SLCRXL) (Z.shiftl (SLCRXLAM esp8266) (SLCRXLA esp8266)) = 0 /\
    Z.land (regs s' SLCTXL) (Z.shiftl (SLCTXLAM esp8266) (SLCTXLA esp8266)) = 0.
Proof.
  apply (stop_clears_dma_registers esp8266 running).
  right. vm_compute. reflexivity.
Defined.

(** X11.  Start arms the DMA on the ring: provided the start bits lie
    outside the descriptor-address fields, the address field of the RX link
    register holds the address of descriptor 0 and that of the TX link
    register the address of descriptor 1 (each shifted into place and cut to
    the field), both start bits are set, and RX end-of-frame is the only
    interrupt class enabled. *)
Theorem start_arms_dma_on_the_ring hw s0 fn rc rate p :
  arrays_ok s0 -> fn <> 0 -> rate_ok hw rate = true ->
  Z.land (SLCRXLS hw) (Z.shiftl (SLCRXLAM hw) (SLCRXLA hw)) = 0 ->
  Z.land (SLCTXLS hw) (Z.shiftl (SLCTXLAM hw) (SLCTXLA hw)) = 0 ->
  exists s1,
    exec (i2s_begin hw fn rc rate p) s0 = Ok s1 /\
    regs s1 SLCIE = u32 (SLCIRXEOF hw) /\
    Z.land (regs s1 SLCRXL) (Z.shiftl (SLCRXLAM hw) (SLCRXLA hw)) =
      Z.land (u32 (Z.shiftl (item_addr hw 0) (SLCRXLA hw)))
             (Z.shiftl (SLCRXLAM hw) (SLCRXLA hw)) /\
    Z.land (regs s1 SLCTXL) (Z.shiftl (SLCTXLAM hw) (SLCTXLA hw)) =
      Z.land (u32 (Z.shiftl (item_addr hw 1) (SLCTXLA hw)))
             (Z.shiftl (SLCTXLAM hw) (SLCTXLA hw)) /\
    Z.land (regs s1 SLCRXL) (SLCRXLS hw) = u32 (SLCRXLS hw) /\
    Z.land (regs s1 SLCTXL) (SLCTXLS hw) = u32 (SLCTXLS hw).
Proof.
  intros [_ Hi] Hfn Hrate Hrx Htx.
  destruct (i2s_begin_delta hw fn rc rate p s0 Hi Hfn Hrate)
    as (s1 & d1 & Hrun1 & _ & _ & _ & Hie & Hr & Ht).
  exists s1. split; [exact (exec_ok _ _ _ _ Hrun1)|]. split; [exact Hie|].
  rewrite Hr, Ht.
  assert (Hu : forall x m, Z.land (u32 (u32 x)) m = Z.land (u32 x) m).
  { intros x m. unfold u32. rewrite Z.mod_mod by lia. reflexivity. }
  split; [rewrite field_set by exact Hrx; apply Hu|].
  split; [rewrite field_set by exact Htx; apply Hu|].
  split; apply bits_set.
Qed.

Lemma start_arms_dma_on_the_ring_witness :
  exists s1,
    exec (i2s_begin esp8266 0x40201234 0 16000 0x3FFF0000) power_on = Ok s1 /\
    regs s1 SLCIE = u32 (SLCIRXEOF esp8266) /\
    Z.land (regs s1 SLCRXL) (Z.shiftl (SLCRXLAM esp8266) (SLCRXLA esp8266)) =
      Z.land (u32 (Z.shiftl (item_addr esp8266 0) (SLCRXLA esp8266)))
             (Z.shiftl (SLCRXLAM esp8266) (SLCRXLA esp8266)) /\
    Z.land (regs s1 SLCTXL) (Z.shiftl (SLCTXLAM esp8266) (SLCTXLA esp8266)) =
      Z.land (u32 (Z.shiftl (item_addr esp8266 1) (SLCTXLA esp8266)))
             (Z.shiftl (SLCTXLAM esp8266) (SLCTXLA esp8266)) /\
    Z.land (regs s1 SLCRXL) (SLCRXLS esp8266) = u32 (SLCRXLS esp8266) /\
    Z.land (regs s1 SLCTXL) (SLCTXLS esp8266) = u32 (SLCTXLS esp8266).
Proof.
  apply (start_arms_dma_on_the_ring esp8266 power_on 0x40201234 0 16000 0x3FFF0000).
  - split; reflexivity.
  - discriminate.
  - reflexivity.
  - reflexivity.
  - reflexivity.
Defined.

(** X12.  The order of start: the pool is allocated and all four buffers
    are pre-filled before any register is written; the SLC is configured,
    the handler attached and the interrupt mask set while the interrupt
    source is disabled; the source is enabled before the two link-start
    writes; pins, clock and the I2S block come afterwards. *)
Theorem start_event_order hw s0 fn rc rate p :
  arrays_ok s0 -> fn <> 0 -> rate_ok hw rate = true ->
  map erase_value (events_of (i2s_begin hw fn rc rate p) s0) =
    [EvMalloc (SLC_BUF_LEN * 4 * SLC_BUF_CNT) p;
     EvRender fn rc (u32 (p + 0 * SLC_BUF_LEN * 4)) SLC_BUF_LEN;
     EvRender fn rc (u32 (p + 1 * SLC_BUF_LEN * 4)) SLC_BUF_LEN;
     EvRender fn rc (u32 (p + 2 * SLC_BUF_LEN * 4)) SLC_BUF_LEN;
     EvRender fn rc (u32 (p + 3 * SLC_BUF_LEN * 4)) SLC_BUF_LEN;
     EvIntrDisable;
     EvWrite SLCC0 0; EvWrite SLCC0 0; EvWrite SLCIC 0;
     EvWrite SLCC0 0; EvWrite SLCC0 0; EvWrite SLCRXDC 0; EvWrite SLCRXDC 0;
     EvWrite SLCTXL 0; EvWrite SLCTXL 0; EvWrite SLCRXL 0; EvWrite SLCRXL 0;
     EvIntrAttach; EvWrite SLCIE 0; EvIntrEnable;
     EvWrite SLCTXL 0; EvWrite SLCRXL 0;
     EvPinMode 2 (FUNCTION_1 hw); EvPinMode 3 (FUNCTION_1 hw);
     EvPinMode 15 (FUNCTION_1 hw);
     EvAudioClock 1; EvWrite I2SIC 0; EvWrite I2SIE 0;
     EvWrite I2SC 0; EvWrite I2SC 0; EvWrite I2SC 0;
     EvWrite I2SFC 0; EvWrite I2SFC 0; EvWrite I2SCC 0;
     EvWrite I2SC 0; EvWrite I2SC 0; EvWrite I2SC 0].
Proof.
  intros [_ Hi] Hfn Hrate.
  destruct (i2s_begin_delta hw fn rc rate p s0 Hi Hfn Hrate)
    as (s1 & d1 & Hrun1 & Ht1 & Hshape & _).
  rewrite (events_of_ok _ _ _ _ _ Hrun1 Ht1). exact Hshape.
Qed.

Lemma start_event_order_witness :
  map erase_value (events_of (i2s_begin esp8266 0x40201234 0 16000 0x3FFF0000) power_on) =
    [EvMalloc (SLC_BUF_LEN * 4 * SLC_BUF_CNT) 0x3FFF0000;
     EvRender 0x40201234 0 (u32 (0x3FFF0000 + 0 * SLC_BUF_LEN * 4)) SLC_BUF_LEN;
     EvRender 0x40201234 0 (u32 (0x3FFF0000 + 1 * SLC_BUF_LEN * 4)) SLC_BUF_LEN;
     EvRender 0x40201234 0 (u32 (0x3FFF0000 + 2 * SLC_BUF_LEN * 4)) SLC_BUF_LEN;
     EvRender 0x40201234 0 (u32 (0x3FFF0000 + 3 * SLC_BUF_LEN * 4)) SLC_BUF_LEN;
     EvIntrDisable;
     EvWrite SLCC0 0; EvWrite SLCC0 0; EvWrite SLCIC 0;
     EvWrite SLCC0 0; EvWrite SLCC0 0; EvWrite SLCRXDC 0; EvWrite SLCRXDC 0;
     EvWrite SLCTXL 0; EvWrite SLCTXL 0; EvWrite SLCRXL 0; EvWrite SLCRXL 0;
     EvIntrAttach; EvWrite SLCIE 0; EvIntrEnable;
     EvWrite SLCTXL 0; EvWrite SLCRXL 0;
     EvPinMode 2 (FUNCTION_1 esp8266); EvPinMode 3 (FUNCTION_1 esp8266);
     EvPinMode 15 (FUNCTION_1 esp8266);
     EvAudioClock 1; EvWrite I2SIC 0; EvWrite I2SIE 0;
     EvWrite I2SC 0; EvWrite I2SC 0; EvWrite I2SC 0;
     EvWrite I2SFC 0; EvWrite I2SFC 0; EvWrite I2SCC 0;
     EvWrite I2SC 0; EvWrite I2SC 0; EvWrite I2SC 0].
Proof.
  apply (start_event_order esp8266 power_on 0x40201234 0 16000 0x3FFF0000).
  - split; reflexivity.
  - discriminate.
  - reflexivity.
Defined.

(** ** The rate computation and the callback *)

Lemma land_bounds a b : 0 <= a -> 0 <= b -> 0 <= Z.land a b <= b.
Proof.
  intros Ha Hb. split; [apply Z.land_nonneg; left; exact Ha|].
  rewrite <- (Z2N.id a Ha), <- (Z2N.id b Hb) at 1.
  rewrite <- N2Z.inj_land.
  rewrite <- (Z2N.id b Hb) at 2. apply N2Z.inj_le, N.land_le_r.
Qed.

(** X13.  The dividers the rate computation returns always fit their
    register fields: each is between 0 and its mask, and the bit-clock
    divider fits the byte it is stored in.  The computation changes nothing
    of the driver's state. *)
Theorem dividers_fit_their_masks hw rate s d s' :
  0 <= I2SCDM hw -> 0 <= I2SBDM hw ->
  i2s_dividers hw rate s = Ok (d, s') ->
  s' = s /\
  0 <= fst d <= I2SCDM hw /\
  0 <= snd d <= I2SBDM hw /\
  snd d < 2 ^ 8.
Proof.
  intros Hc Hb Hrun.
  destruct (rate_ok hw rate) eqn:Hrate.
  - rewrite (i2s_dividers_ok hw rate s Hrate) in Hrun.
    injection Hrun as <- <-. cbn [fst snd].
    assert (Hq : forall x y, 0 <= u32 x / u32 y).
    { intros x y. apply Z_div_nonneg_nonneg; unfold u32; apply Z.mod_pos_bound; lia. }
    split; [reflexivity|]. split; [apply land_bounds; [apply Hq | exact Hc]|].
    unfold bck_div, u8.
    pose proof (land_bounds _ _ (Hq (I2SBASEFREQ hw) (rate * clock_div hw rate * 2)) Hb)
      as [Hl0 Hl1].
    set (y := Z.land _ _) in *.
    pose proof (Z.mod_pos_bound y (2 ^ 8) ltac:(lia)) as [Hm0 Hm1].
    pose proof (Z.mod_le y (2 ^ 8) Hl0 ltac:(lia)). lia.
  - rewrite (i2s_dividers_fault hw rate s Hrate) in Hrun. discriminate.
Qed.

Lemma dividers_fit_their_masks_witness :
  power_on = power_on /\
  0 <= fst (56, 25) <= I2SCDM esp8266 /\
  0 <= snd (56, 25) <= I2SBDM esp8266 /\
  snd (56, 25) < 2 ^ 8.
Proof.
  apply (dividers_fit_their_masks esp8266 16000 power_on (56, 25) power_on).
  - discriminate.
  - discriminate.
  - vm_compute. reflexivity.
Defined.

(** X14.  The first division is unguarded too: for a rate of 0, or any
    other multiple of 2^27, the divisor [rate * 32] is zero in 32 bits, the
    rate computation divides by zero, and so does start. *)
Theorem rate_zero_divides_by_zero hw rate fn rc p s :
  rate mod 2 ^ 27 = 0 -> arrays_ok s -> fn <> 0 ->
  i2s_dividers hw rate s = Fault DivideByZero /\
  exec (i2s_begin hw fn rc rate p) s = Fault DivideByZero.
Proof.
  intros Hr [_ Hi] Hfn.
  assert (Hrate : rate_ok hw rate = false).
  { unfold rate_ok.
    assert (Hz : u32 (rate * 32) = 0).
    { unfold u32. apply Z.mod_divide in Hr as [k ->]; [|lia].
      replace (k * 2 ^ 27 * 32) with (k * 2 ^ 32) by lia.
      apply Z.mod_mul. lia. }
    rewrite Hz. reflexivity. }
  split; [apply i2s_dividers_fault, Hrate|].
  apply exec_fault, i2s_begin_fault; assumption.
Qed.

Lemma rate_zero_divides_by_zero_witness :
  i2s_dividers esp8266 0 power_on = Fault DivideByZero /\
  exec (i2s_begin esp8266 0x40201234 0 0 0x3FFF0000) power_on = Fault DivideByZero.
Proof.
  apply (rate_zero_divides_by_zero esp8266 0 0x40201234 0 0x3FFF0000 power_on).
  - reflexivity.
  - split; reflexivity.
  - discriminate.
Defined.

(** X15.  Start does not test the render callback: given a null callback
    it allocates the pool and then calls through the null pointer at the
    first pre-fill, from any state. *)
Theorem start_with_null_callback_traps hw rc rate p s :
  exec (i2s_begin hw 0 rc rate p) s = Fault NullCall.
Proof.
  destruct_state s.
  unfold i2s_begin, i2s_slc_begin, malloc. mred.
  change (Z.to_nat SLC_BUF_CNT) with 4%nat. cbn [for_].
  unfold slc_begin_body, call_render. mred. reflexivity.
Qed.

(** ** Handler and pop together *)

(** X16.  The handler and the pop form a first-in, first-out queue with
    overwrite: after a start and at least one completion, a pop returns the
    buffer of the oldest completion still held (the third last, or the first
    when fewer than three happened) and leaves the later ones, in order. *)
Theorem pop_after_completions_is_fifo hw s0 fn rc rate p xs :
  arrays_ok s0 -> fn <> 0 -> rate_ok hw rate = true -> block_ok p ->
  SLCIRXEOF hw <> 0 -> Forall (fun x => 0 <= x < SLC_BUF_CNT) xs -> xs <> [] ->
  exists s1 s2 item s3,
    exec (i2s_begin hw fn rc rate p) s0 = Ok s1 /\
    exec (slc_interrupts hw (map (completion_of hw) xs)) s1 = Ok s2 /\
    i2s_slc_queue_next_item s2 = Ok (item, s3) /\
    last_n 3 (map (fun x => p + x * (SLC_BUF_LEN * 4)) xs) =
      item :: guard_contents s3.
Proof.
  intros Ha0 Hfn Hrate Hp Hbit Hxs Hne.
  destruct (session_run hw s0 fn rc rate p xs Ha0 Hfn Hrate Hp Hbit Hxs)
    as (s1 & s2 & d1 & d2 & Hrun1 & Hrun2 & _ & _ & _ & _ & Hgc).
  pose proof Ha0 as [Hq0 Hi0].
  destruct (i2s_begin_ok hw fn rc rate p s0 Hi0 Hfn Hrate) as (s1' & Hrun1' & Hs1).
  rewrite Hrun1 in Hrun1'. injection Hrun1' as <-.
  destruct Hs1 as [Hq1 Hl1 _ Hit1 Hr1 _ _ _ _ _].
  assert (Ha1 : arrays_ok s1).
  { split; [rewrite Hq1; exact Hq0 | rewrite Hit1; reflexivity]. }
  assert (Hg1 : guard_ok s1) by (unfold guard_ok, SLC_BUF_CNT; rewrite Hl1; lia).
  assert (Hn1 : i2s_render s1 <> 0) by (rewrite Hr1; exact Hfn).
  destruct (completions_run hw _ s1 Ha1 Hg1 Hn1 (completions_of_ok hw xs Hbit Hxs))
    as (s2' & Hrun2' & Ha2 & Hl2 & _).
  rewrite Hrun2 in Hrun2'. injection Hrun2' as <-.
  rewrite Hl1, length_map in Hl2.
  assert (Hlen : 1 <= i2s_slc_queue_len s2 <= SLC_BUF_CNT - 1).
  { destruct xs as [|x xs]; [contradiction|].
    rewrite Hl2. cbn [length]. unfold SLC_BUF_CNT. lia. }
  destruct (pop_run s2 Ha2 Hlen) as (item & s3 & Hpop & Hcons & _).
  exists s1, s2, item, s3.
  split; [exact (exec_ok _ _ _ _ Hrun1)|].
  split; [exact (exec_ok _ _ _ _ Hrun2)|].
  split; [exact Hpop|]. rewrite <- Hgc. exact Hcons.
Qed.

Lemma pop_after_completions_is_fifo_witness :
  exists s1 s2 item s3,
    exec (i2s_begin esp8266 0x40201234 0 16000 0x3FFF0000) power_on = Ok s1 /\
    exec (slc_interrupts esp8266 (map (completion_of esp8266) [0; 1; 2; 3])) s1 = Ok s2 /\
    i2s_slc_queue_next_item s2 = Ok (item, s3) /\
    last_n 3 (map (fun x => 0x3FFF0000 + x * (SLC_BUF_LEN * 4)) [0; 1; 2; 3]) =
      item :: guard_contents s3.
Proof.
  apply (pop_after_completions_is_fifo
           esp8266 power_on 0x40201234 0 16000 0x3FFF0000 [0; 1; 2; 3]).
  - split; reflexivity.
  - discriminate.
  - reflexivity.
  - split; vm_compute; [reflexivity | discriminate].
  - discriminate.
  - repeat constructor; discriminate.
  - discriminate.
Defined.
